(** * GitRate front end: saved-profile store, profile queries, ranking, API client

    A shallow embedding of the JavaScript of the GitRate front end
    ([services/storage.js], [services/api.js], the filter and sort code of
    [components/SavedProfiles.jsx] and the ranking of
    [components/CompareView.jsx]) and the properties of it that the
    specification states; then the rest of these files, the search form
    ([components/SearchBar.jsx]), the steps of
    [components/LoadingState.jsx] and the handlers of the two versions of
    [App.jsx], with properties read off the code.

    Conventions of the embedding.
    - A rating result is a record; a field that may be [undefined] or
      [null] in JavaScript is an [option].  Scores are integers ([Z]).
    - [localStorage] is a finite map from keys to stored texts, together
      with the condition of the medium (it may refuse writes, or every
      access).  In the first embedding of the store a stored text is the
      serialisation of an array of records, as the store writes it, or a
      text that [JSON.parse] rejects.  The second embedding, [anyStore],
      also reads well-formed JSON whose value is no array, which another
      script or the user may have put under the key; on the storages of the
      first embedding the two agree (the lemmas on [widen]).
    - A username that is missing is [None]; where the code tells
      [undefined] from [null] (the strict comparison of
      [storage.removeProfile] when the argument itself is missing), the
      embedding takes the comparison as an argument.  [new Date(s)] of a
      text that is no date has no time value ([None], the [NaN] of
      JavaScript).
    - Code that can throw lives in a state-and-exception monad [Eff];
      [try_catch] is the [try { } catch (e) { }] statement.  Writing to the
      console is not modelled.
    - [new Date().toISOString()] is an argument [now] of the operation that
      reads the clock. *)

From Stdlib Require Import ZArith.
From stdpp Require Import base option list sorting strings gmap.

Local Open Scope Z_scope.

(** ** JavaScript values and built-ins *)

Inductive JsError :=
| Error (message : string)
| TypeError (message : string)
| SyntaxError (message : string)
| DOMException (name : string).

(** How the evaluation of a piece of code ends; also how a promise settles
    ([Normal] fulfilled, [Throw] rejected), which is what [await] turns it
    into. *)
Inductive completion (A : Type) :=
| Normal (a : A)
| Throw (e : JsError).
Arguments Normal {A} a.
Arguments Throw {A} e.

(** [v || d] for [v] and [d] that are each a string, [undefined] or [null]:
    the empty string is falsy like the two others. *)
Definition or_opt (v d : option string) : option string :=
  match v with
  | Some s => if bool_decide (s = "") then d else Some s
  | None => d
  end.

(** [v || 'literal'] *)
Definition or_else (v : option string) (d : string) : string :=
  default d (or_opt v (Some d)).

Module JSArray.

(** [Array.prototype.findIndex]: the first index whose element satisfies
    [f], or [-1]. *)
Fixpoint findIndex_from {A} (f : A → bool) (l : list A) (i : Z) : Z :=
  match l with
  | [] => -1
  | x :: l' => if f x then i else findIndex_from f l' (i + 1)
  end.
Definition findIndex {A} (f : A → bool) (l : list A) : Z :=
  findIndex_from f l 0.

(** [a[i] = x] for [0 <= i], on an array without holes.  Within the
    bounds it overwrites; at [i = a.length] it appends; beyond that
    JavaScript leaves holes, which this embedding does not represent (the
    program never assigns past the end). *)
Definition assign {A} (l : list A) (i : Z) (x : A) : list A :=
  if (Z.to_nat i =? length l)%nat then l ++ [x] else <[Z.to_nat i := x]> l.

(** [unshift], [pop] (the array left behind), [some], [filter]. *)
Definition unshift {A} (x : A) (l : list A) : list A := x :: l.
Definition pop {A} (l : list A) : list A := removelast l.
Definition some {A} (f : A → bool) (l : list A) : bool := existsb f l.
Definition filter {A} (f : A → bool) (l : list A) : list A := List.filter f l.

(** [Array.prototype.sort] with a comparator.  ECMAScript (since 2019)
    requires the sort to be stable, so for a comparator that is a
    consistent preorder the result does not depend on the algorithm; the
    embedding takes the stable insertion sort: [x] goes before the first
    element it does not compare greater than. *)
Fixpoint sort_insert {A} (cmp : A → A → Z) (x : A) (l : list A) : list A :=
  match l with
  | [] => [x]
  | y :: l' => if cmp x y <=? 0 then x :: y :: l' else y :: sort_insert cmp x l'
  end.
Fixpoint sort {A} (cmp : A → A → Z) (l : list A) : list A :=
  match l with
  | [] => []
  | x :: l' => sort_insert cmp x (sort cmp l')
  end.

End JSArray.

(** ** Rating results *)

(** The [profile] object of a rating result. *)
Record Profile := {
  username : option string;
  name : option string;
  avatar_url : option string;
}.

(** A rating result as the API returns it, and as the store keeps it (then
    with [savedAt]). *)
Record ProfileData := {
  profile : option Profile;
  final_score : Z;
  tier : option string;
  summary : option string;
  savedAt : option string;
}.

Global Instance Profile_eq_dec : EqDecision Profile.
Proof. solve_decision. Defined.
Global Instance ProfileData_eq_dec : EqDecision ProfileData.
Proof. solve_decision. Defined.

(** [p.profile?.username] *)
Definition profile_username (p : ProfileData) : option string :=
  profile p ≫= username.

(** [{...profileData, savedAt: now}] *)
Definition with_savedAt (profileData : ProfileData) (now : string) : ProfileData :=
  {| profile := profile profileData;
     final_score := final_score profileData;
     tier := tier profileData;
     summary := summary profileData;
     savedAt := Some now |}.

(** ** The browser's [localStorage] *)

Inductive Medium :=
| Healthy        (* every access works *)
| QuotaFull      (* reads and removals work, [setItem] throws *)
| Unavailable.   (* every access throws *)

Global Instance Medium_eq_dec : EqDecision Medium.
Proof. solve_decision. Defined.

Inductive Text :=
| Serialized (ps : list ProfileData)  (* the text [JSON.stringify] makes of [ps] *)
| Malformed (s : string).             (* a text [s] that [JSON.parse] rejects *)

Record LocalStorage := {
  medium : Medium;
  entries : gmap string Text;
}.

(** State and exceptions. *)
Definition Eff (A : Type) : Type := LocalStorage → completion A * LocalStorage.

Global Instance Eff_ret : MRet Eff := λ A a ls, (Normal a, ls).
Global Instance Eff_bind : MBind Eff := λ A B f m ls,
  match m ls with
  | (Normal a, ls') => f a ls'
  | (Throw e, ls') => (Throw e, ls')
  end.

Definition try_catch {A} (body : Eff A) (handler : JsError → Eff A) : Eff A :=
  λ ls, match body ls with
        | (Normal a, ls') => (Normal a, ls')
        | (Throw e, ls') => handler e ls'
        end.

Definition lift {A} (c : completion A) : Eff A := λ ls, (c, ls).

Module localStorage.

Definition getItem (key : string) : Eff (option Text) := λ ls,
  match medium ls with
  | Unavailable => (Throw (DOMException "SecurityError"), ls)
  | _ => (Normal (entries ls !! key), ls)
  end.

Definition setItem (key : string) (value : Text) : Eff unit := λ ls,
  match medium ls with
  | Healthy => (Normal (), {| medium := Healthy; entries := <[key := value]> (entries ls) |})
  | QuotaFull => (Throw (DOMException "QuotaExceededError"), ls)
  | Unavailable => (Throw (DOMException "SecurityError"), ls)
  end.

Definition removeItem (key : string) : Eff unit := λ ls,
  match medium ls with
  | Unavailable => (Throw (DOMException "SecurityError"), ls)
  | m => (Normal (), {| medium := m; entries := delete key (entries ls) |})
  end.

End localStorage.

Module JSON.

Definition stringify (ps : list ProfileData) : Text := Serialized ps.

Definition parse (t : Text) : completion (list ProfileData) :=
  match t with
  | Serialized ps => Normal ps
  | Malformed s => Throw (SyntaxError "Unexpected token")
  end.

End JSON.

(** Truthiness of a stored text: only the empty string is falsy. *)
Definition truthy (t : Text) : bool :=
  match t with
  | Serialized _ => true
  | Malformed s => bool_decide (s ≠ "")
  end.

(** ** [services/storage.js] *)

Module storage.

Definition STORAGE_KEY : string := "gitrate_saved_profiles".

Definition getSavedProfiles : Eff (list ProfileData) :=
  try_catch
    (data ← localStorage.getItem STORAGE_KEY;
     match data with
     | Some t => if truthy t then lift (JSON.parse t) else mret []
     | None => mret []
     end)
    (λ e, mret []).

(** The username [saveProfile] files a result under:
    [profileData.profile?.username || 'unknown']. *)
Definition username_of (profileData : ProfileData) : string :=
  or_else (profile_username profileData) "unknown".

Definition saveProfile (profileData : ProfileData) (now : string) : Eff bool :=
  try_catch
    (profiles ← getSavedProfiles;
     let username := username_of profileData in
     let existingIndex :=
       JSArray.findIndex (λ p, bool_decide (profile_username p = Some username)) profiles in
     let savedProfile := with_savedAt profileData now in
     let profiles :=
       if 0 <=? existingIndex then JSArray.assign profiles existingIndex savedProfile
       else
         let profiles := JSArray.unshift savedProfile profiles in
         if (10 <? length profiles)%nat then JSArray.pop profiles else profiles in
     localStorage.setItem STORAGE_KEY (JSON.stringify profiles);;
     mret true)
    (λ e, mret false).

Definition removeProfile (username : string) : Eff bool :=
  try_catch
    (profiles ← getSavedProfiles;
     let filtered :=
       JSArray.filter (λ p, bool_decide (profile_username p ≠ Some username)) profiles in
     localStorage.setItem STORAGE_KEY (JSON.stringify filtered);;
     mret true)
    (λ e, mret false).

Definition isProfileSaved (username : string) : Eff bool :=
  profiles ← getSavedProfiles;
  mret (JSArray.some (λ p, bool_decide (profile_username p = Some username)) profiles).

Definition clearAll : Eff bool :=
  try_catch
    (localStorage.removeItem STORAGE_KEY;;
     mret true)
    (λ e, mret false).

End storage.

(** A run of [saveProfile] calls, first call first; each call comes with the
    time the clock shows when it is made. *)
Fixpoint save_each (calls : list (ProfileData * string)) : Eff (list bool) :=
  match calls with
  | [] => mret []
  | (profileData, now) :: calls' =>
      b ← storage.saveProfile profileData now;
      bs ← save_each calls';
      mret (b :: bs)
  end.

(** What [getSavedProfiles] returns in a storage. *)
Definition saved (ls : LocalStorage) : completion (list ProfileData) :=
  (storage.getSavedProfiles ls).1.

(** The record a call leaves in the store. *)
Definition stamp (call : ProfileData * string) : ProfileData :=
  with_savedAt call.1 call.2.

(** ** [components/SavedProfiles.jsx]: the filter and the sort *)

Module SavedProfiles.
Section Component.

(** [String.prototype.toLowerCase], [String.prototype.localeCompare]
    (which depends on the locale of the browser) and the time value of
    [new Date(s)] for a string [s]: [None] when [s] is not a date, the
    time value then being [NaN]. *)
Variable toLowerCase : string → string.
Variable localeCompare : string → string → Z.
Variable Date_value : string → option Z.

Definition filterByTier (profiles : list ProfileData) (filter : string)
    : list ProfileData :=
  if bool_decide (filter = "all") then profiles
  else JSArray.filter (λ p, bool_decide (tier p = Some filter)) profiles.

(** [(a.profile?.name || a.profile?.username || '').toLowerCase()] *)
Definition sort_name (a : ProfileData) : string :=
  toLowerCase (or_else (or_opt (profile a ≫= name) (profile_username a)) "").

(** [new Date(a.savedAt || 0)], in milliseconds; [None] for an invalid
    date. *)
Definition sort_date (a : ProfileData) : option Z :=
  match or_opt (savedAt a) None with
  | Some s => Date_value s
  | None => Some 0
  end.

(** The difference of two dates.  With an invalid date it is [NaN], and the
    comparator then returns [NaN], which [Array.prototype.sort] takes for
    0. *)
Definition date_difference (a b : ProfileData) : Z :=
  match sort_date a, sort_date b with
  | Some ta, Some tb => ta - tb
  | _, _ => 0
  end.

Definition comparator (sortBy sortOrder : string) (a b : ProfileData) : Z :=
  let comparison :=
    if bool_decide (sortBy = "score") then final_score a - final_score b
    else if bool_decide (sortBy = "name") then localeCompare (sort_name a) (sort_name b)
    else date_difference a b in
  if bool_decide (sortOrder = "desc") then - comparison else comparison.

Definition sortProfiles (profiles : list ProfileData) (sortBy sortOrder : string)
    : list ProfileData :=
  JSArray.sort (comparator sortBy sortOrder) profiles.

(** The profiles the component shows for its state [filter], [sortBy],
    [sortOrder]. *)
Definition filteredProfiles (profiles : list ProfileData)
    (filter sortBy sortOrder : string) : list ProfileData :=
  sortProfiles (filterByTier profiles filter) sortBy sortOrder.

End Component.
End SavedProfiles.

(** ** [components/CompareView.jsx]: the guard and the ranking *)

Module CompareView.

Inductive View :=
| NeedTwoProfiles (message : string)   (* the early return *)
| Leaderboard (ranked : list ProfileData) (cards : list ProfileData).

(** [[...profiles].sort((a, b) => b.final_score - a.final_score)].  In the
    source this expression stands in the body of [CompareView], after the
    guard; it has a name here so that the ranking can be spoken of. *)
Definition ranked (profiles : list ProfileData) : list ProfileData :=
  JSArray.sort (λ a b, final_score b - final_score a) profiles.

(** [profiles] is [None] when the property is [null] or [undefined]. *)
Definition CompareView (profiles : option (list ProfileData)) : View :=
  match profiles with
  | None => NeedTwoProfiles "Need at least 2 profiles to compare"
  | Some profiles =>
      if (length profiles <? 2)%nat then
        NeedTwoProfiles "Need at least 2 profiles to compare"
      else Leaderboard (ranked profiles) profiles
  end.

End CompareView.

(** ** [services/api.js] *)

Module api.

Definition API_BASE_URL : string := "http://localhost:8000/api".

Record Request := {
  url : string;
  method : string;
  headers : list (string * string);
}.

(** A response: its status and what [response.json()] settles to. *)
Record Response := {
  status : Z;
  json : completion ProfileData;
}.

(** [response.ok] *)
Definition ok (response : Response) : bool :=
  (200 <=? status response) && (status response <=? 299).

Definition rate_request (username : string) : Request :=
  {| url := API_BASE_URL +:+ "/rate/" +:+ username;
     method := "POST";
     headers := [("Content-Type", "application/json")] |}.

(** [fetch] is the network: it settles to a response, or rejects. *)
Definition rateDeveloper (fetch : Request → completion Response) (username : string)
    : completion ProfileData :=
  match fetch (rate_request username) with
  | Throw e => Throw e
  | Normal response =>
      if negb (ok response) then Throw (Error "Failed to rate developer")
      else json response
  end.

End api.

(** ** Vocabulary of the proofs *)

(** The array of records a storage holds, read off the state directly. *)
Definition stored (ls : LocalStorage) : list ProfileData :=
  match medium ls with
  | Unavailable => []
  | _ =>
      match entries ls !! storage.STORAGE_KEY with
      | Some (Serialized ps) => ps
      | _ => []
      end
  end.

(** The test [saveProfile] and [isProfileSaved] run on each stored record. *)
Definition has_username (username : string) (p : ProfileData) : bool :=
  bool_decide (profile_username p = Some username).

(** What one [saveProfile] makes of the array it has read. *)
Definition save_into (profiles : list ProfileData) (call : ProfileData * string)
    : list ProfileData :=
  let existingIndex :=
    JSArray.findIndex (has_username (storage.username_of call.1)) profiles in
  if 0 <=? existingIndex then JSArray.assign profiles existingIndex (stamp call)
  else
    let profiles := JSArray.unshift (stamp call) profiles in
    if (10 <? length profiles)%nat then JSArray.pop profiles else profiles.

(** The storage a successful write of [ps] leaves. *)
Definition written (ps : list ProfileData) (ls : LocalStorage) : LocalStorage :=
  {| medium := Healthy;
     entries := <[storage.STORAGE_KEY := Serialized ps]> (entries ls) |}.

(** ** Sample data *)

Definition sample (u : option string) (score : Z) (t : string) : ProfileData :=
  {| profile := Some {| username := u; name := None; avatar_url := None |};
     final_score := score;
     tier := Some t;
     summary := None;
     savedAt := None |}.

(** A working storage with nothing in it. *)
Definition fresh_storage : LocalStorage := {| medium := Healthy; entries := ∅ |}.

Definition eleven_calls : list (ProfileData * string) :=
  (λ u, (sample (Some u) 50 "Advanced", "2024-05-01T10:00:00.000Z")) <$>
  ["ada"; "bob"; "cyd"; "dan"; "eve"; "fay"; "gus"; "hal"; "ivy"; "jon"; "kim"].

(** Two profiles saved one after the other: [bob] is at the front, [ada]
    behind. *)
Definition ada_then_bob : LocalStorage :=
  (save_each [(sample (Some "ada") 80 "Advanced", "2024-05-01T10:00:00.000Z");
              (sample (Some "bob") 60 "Intermediate", "2024-05-02T10:00:00.000Z")]
     fresh_storage).2.

Definition unavailable_storage : LocalStorage :=
  {| medium := Unavailable; entries := entries ada_then_bob |}.
Definition corrupt_storage : LocalStorage :=
  {| medium := Healthy; entries := {[ storage.STORAGE_KEY := Malformed "[{oops" ]} |}.

(** ** Failures of the medium *)

Definition getItem_fails (ls : LocalStorage) : Prop :=
  ∃ e, (localStorage.getItem storage.STORAGE_KEY ls).1 = Throw e.
Definition setItem_fails (ls : LocalStorage) : Prop :=
  ∀ value, ∃ e, (localStorage.setItem storage.STORAGE_KEY value ls).1 = Throw e.
Definition removeItem_fails (ls : LocalStorage) : Prop :=
  ∃ e, (localStorage.removeItem storage.STORAGE_KEY ls).1 = Throw e.

(** The stored value is there but [JSON.parse] rejects it. *)
Definition unparseable (ls : LocalStorage) : Prop :=
  ∃ t e, (localStorage.getItem storage.STORAGE_KEY ls).1 = Normal (Some t) ∧
         JSON.parse t = Throw e.

(** ** Orders *)

(** The order a comparator sorts by: [a] may stand before [b]. *)
Definition before {A} (cmp : A → A → Z) : relation A := λ a b, cmp a b ≤ 0.

Definition score_ascending : relation ProfileData :=
  λ a b, final_score a ≤ final_score b.
Definition score_descending : relation ProfileData :=
  λ a b, final_score b ≤ final_score a.

(** Three results with the scores 90, 60 and 75. *)
Definition three_scores : list ProfileData :=
  [sample (Some "ada") 90 "Elite"; sample (Some "bob") 60 "Intermediate";
   sample (Some "cyd") 75 "Advanced"].

(** ** The claim of a status-carrying failure *)

(** What it would mean for the failure of [rateDeveloper] on an
    unsuccessful response to carry the status of the response: the status
    can be read off the error thrown. *)
Definition failure_carries_status : Prop :=
  ∃ status_of : JsError → Z,
    ∀ fetch username response,
      fetch (api.rate_request username) = Normal response →
      api.ok response = false →
      ∃ e, api.rateDeveloper fetch username = Throw e ∧
           status_of e = api.status response.

Definition not_found : api.Response :=
  {| api.status := 404; api.json := Throw (SyntaxError "Unexpected token") |}.
Definition server_error : api.Response :=
  {| api.status := 500; api.json := Throw (SyntaxError "Unexpected token") |}.

(** ** Sequences of store operations *)

(** The three operations of [storage] that write. *)
Inductive StoreOp :=
| OpSave (profileData : ProfileData) (now : string)
| OpRemove (username : string)
| OpClear.

Definition run_op (op : StoreOp) : Eff bool :=
  match op with
  | OpSave profileData now => storage.saveProfile profileData now
  | OpRemove username => storage.removeProfile username
  | OpClear => storage.clearAll
  end.

Fixpoint run_ops (ops : list StoreOp) : Eff (list bool) :=
  match ops with
  | [] => mret []
  | op :: ops' =>
      b ← run_op op;
      bs ← run_ops ops';
      mret (b :: bs)
  end.

(** The username a stored record carries, when it carries a non-empty one. *)
Definition carried_username (p : ProfileData) : option string :=
  or_opt (profile_username p) None.

Definition carried_usernames (ps : list ProfileData) : list string :=
  omap carried_username ps.

(** A run that saves twelve profiles, removes one, saves one of them again
    and one more. *)
Definition sample_ops : list StoreOp :=
  ((λ u, OpSave (sample (Some u) 50 "Advanced") "2024-05-01T10:00:00.000Z") <$>
   ["ada"; "bob"; "cyd"; "dan"; "eve"; "fay"; "gus"; "hal"; "ivy"; "jon"; "kim"; "lee"])
  ++ [OpRemove "eve";
      OpSave (sample (Some "kim") 95 "Elite") "2024-05-02T10:00:00.000Z";
      OpSave (sample (Some "max") 20 "Beginner") "2024-05-03T10:00:00.000Z"].

(** A storage that another script of the page uses too. *)
Definition shared_storage : LocalStorage :=
  {| medium := Healthy;
     entries := <["theme" := Malformed "dark"]> (entries ada_then_bob) |}.

(** A storage in which a user named [unknown] is saved behind [ada]. *)
Definition unknown_then_ada : LocalStorage :=
  (save_each [(sample (Some "unknown") 77 "Advanced", "2024-05-01T10:00:00.000Z");
              (sample (Some "ada") 80 "Advanced", "2024-05-02T10:00:00.000Z")]
     fresh_storage).2.

(** ** [components/SearchBar.jsx]: submitting the form *)

Module SearchBar.

(** The characters of a string are its UTF-16 code units; this embedding
    has the code units below 256.  Among them [String.prototype.trim]
    removes TAB, LF, VT, FF, CR, SP and NBSP. *)
Definition isWhiteSpace (c : Ascii.ascii) : bool :=
  bool_decide (Ascii.N_of_ascii c ∈ [9; 10; 11; 12; 13; 32; 160]%N).

Fixpoint trimStart_chars (l : list Ascii.ascii) : list Ascii.ascii :=
  match l with
  | [] => []
  | c :: l' => if isWhiteSpace c then trimStart_chars l' else l
  end.

Definition trim (s : string) : string :=
  String.string_of_list_ascii
    (rev (trimStart_chars (rev (trimStart_chars (String.list_ascii_of_string s))))).

(** [username.replace(/^@/, '')] *)
Definition replace_leading_at (username : string) : string :=
  match username with
  | String c rest => if bool_decide (String c "" = "@") then rest else username
  | "" => ""
  end.

(** [handleSubmit] for the text [username] of the input field: the argument
    it calls [onSearch] with, or [None] when it does not call it. *)
Definition handleSubmit (username : string) : option string :=
  if bool_decide (trim username ≠ "") then
    let cleanUsername := replace_leading_at username in
    Some cleanUsername
  else None.

End SearchBar.

(** ** [services/api.js]: the two other calls *)

Module apiCalls.
Section Body.

(** What the body of a response is parsed to. *)
Context {Body : Type}.

Record Response := {
  status : Z;
  json : completion Body;
}.

(** [response.ok] *)
Definition ok (response : Response) : bool :=
  (200 <=? status response) && (status response <=? 299).

(** [fetch(url)] without options is a GET without headers of its own. *)
Definition user_data_request (username : string) : api.Request :=
  {| api.url := api.API_BASE_URL +:+ "/user/" +:+ username +:+ "/data";
     api.method := "GET";
     api.headers := [] |}.

Definition health_request : api.Request :=
  {| api.url := api.API_BASE_URL +:+ "/health";
     api.method := "GET";
     api.headers := [] |}.

Definition getUserData (fetch : api.Request → completion Response) (username : string)
    : completion Body :=
  match fetch (user_data_request username) with
  | Throw e => Throw e
  | Normal response =>
      if negb (ok response) then Throw (Error "Failed to fetch user data")
      else json response
  end.

Definition healthCheck (fetch : api.Request → completion Response) : completion Body :=
  match fetch health_request with
  | Throw e => Throw e
  | Normal response =>
      if negb (ok response) then Throw (Error "Health check failed")
      else json response
  end.

End Body.
Arguments Response : clear implicits.
End apiCalls.

(** ** [App.jsx]: the state of the application and its handlers *)

(** The first version of the application: a search and its result. *)
Module App0.

Record State := {
  data : option ProfileData;
  loading : bool;
  error : option string;
}.

Definition initial : State := {| data := None; loading := false; error := None |}.

(** [handleSearch] up to its [await]. *)
Definition handleSearch_begin (st : State) : State :=
  {| data := None; loading := true; error := None |}.

(** [handleSearch] from the moment the request settles. *)
Definition handleSearch_end (response : completion ProfileData) (st : State) : State :=
  let st :=
    match response with
    | Normal result => {| data := Some result; loading := loading st; error := error st |}
    | Throw err =>
        {| data := data st; loading := loading st;
           error := Some "Failed to generate rating. Please check the username and try again." |}
    end in
  {| data := data st; loading := false; error := error st |}.

Definition handleSearch (fetch : api.Request → completion api.Response)
    (username : string) (st : State) : State :=
  handleSearch_end (api.rateDeveloper fetch username) (handleSearch_begin st).

End App0.

(** The application with saved profiles and tabs. *)
Module App.

Record State := {
  data : option ProfileData;
  loading : bool;
  error : option string;
  savedProfiles : list ProfileData;
  activeTab : string;
}.

Definition setData (v : option ProfileData) (st : State) : State :=
  {| data := v; loading := loading st; error := error st;
     savedProfiles := savedProfiles st; activeTab := activeTab st |}.
Definition setLoading (v : bool) (st : State) : State :=
  {| data := data st; loading := v; error := error st;
     savedProfiles := savedProfiles st; activeTab := activeTab st |}.
Definition setError (v : option string) (st : State) : State :=
  {| data := data st; loading := loading st; error := v;
     savedProfiles := savedProfiles st; activeTab := activeTab st |}.
Definition setSavedProfiles (v : list ProfileData) (st : State) : State :=
  {| data := data st; loading := loading st; error := error st;
     savedProfiles := v; activeTab := activeTab st |}.
Definition setActiveTab (v : string) (st : State) : State :=
  {| data := data st; loading := loading st; error := error st;
     savedProfiles := savedProfiles st; activeTab := v |}.

(** The state of the application and the storage of the browser. *)
Definition World : Type := State * LocalStorage.

Definition initial : State :=
  {| data := None; loading := false; error := None;
     savedProfiles := []; activeTab := "search" |}.

(** The effect that runs on mount:
    [setSavedProfiles(storage.getSavedProfiles())]. *)
Definition reload (w : World) : World :=
  match storage.getSavedProfiles w.2 with
  | (Normal profiles, ls) => (setSavedProfiles profiles w.1, ls)
  | (Throw _, ls) => (w.1, ls)
  end.

Definition mount (ls : LocalStorage) : World := reload (initial, ls).

Definition failure_message : string :=
  "Failed to generate rating. Please check the username and try again.".

(** [handleSearch] up to its [await]. *)
Definition handleSearch_begin (w : World) : World :=
  (setData None (setError None (setLoading true w.1)), w.2).

(** [handleSearch] from the moment the request settles: the [try] block
    after the [await], the [catch] and the [finally].  [now] is the time
    [saveProfile] reads. *)
Definition handleSearch_end (response : completion ProfileData) (now : string)
    (w : World) : World :=
  let w :=
    match response with
    | Normal result =>
        let st := setData (Some result) w.1 in
        match storage.saveProfile result now w.2 with
        | (Normal _, ls) =>
            match storage.getSavedProfiles ls with
            | (Normal profiles, ls) => (setSavedProfiles profiles st, ls)
            | (Throw err, ls) => (setError (Some failure_message) st, ls)
            end
        | (Throw err, ls) => (setError (Some failure_message) st, ls)
        end
    | Throw err => (setError (Some failure_message) w.1, w.2)
    end in
  (setLoading false w.1, w.2).

Definition handleSearch (fetch : api.Request → completion api.Response)
    (username now : string) (w : World) : World :=
  handleSearch_end (api.rateDeveloper fetch username) now (handleSearch_begin w).

(** What a card passes to [onRemove], [profile.profile?.username]: a
    string, or no username, which is [undefined] or [null].  [!==] tells
    these two apart, and a record of this embedding keeps no trace of which
    of them its missing username is.  With no username therefore come the
    positions, in the stored array, of the records whose missing username
    is the same as the one passed. *)
Inductive CardUsername :=
| Username (u : string)
| NoUsername (same : nat → bool).

(** [p.profile?.username !== username] for the record [p] at position [i]
    of the stored array. *)
Definition differs (username : CardUsername) (i : nat) (p : ProfileData) : bool :=
  match username with
  | Username u => bool_decide (profile_username p ≠ Some u)
  | NoUsername same => negb (bool_decide (profile_username p = None) && same i)
  end.

(** [Array.prototype.filter] with a test that is given the position. *)
Fixpoint filter_from {A} (keep : nat → A → bool) (i : nat) (l : list A) : list A :=
  match l with
  | [] => []
  | x :: l' =>
      if keep i x then x :: filter_from keep (S i) l' else filter_from keep (S i) l'
  end.
Definition filter_at {A} (keep : nat → A → bool) (l : list A) : list A :=
  filter_from keep 0 l.

(** [storage.removeProfile] at the argument a card passes. *)
Definition removeProfile (username : CardUsername) : Eff bool :=
  try_catch
    (profiles ← storage.getSavedProfiles;
     let filtered := filter_at (differs username) profiles in
     localStorage.setItem storage.STORAGE_KEY (JSON.stringify filtered);;
     mret true)
    (λ e, mret false).

(** The argument the card of the record [p] passes. *)
Definition card_username (p : ProfileData) (same : nat → bool) : CardUsername :=
  match profile_username p with
  | Some u => Username u
  | None => NoUsername same
  end.

Definition handleRemoveProfile (username : CardUsername) (w : World) : World :=
  match removeProfile username w.2 with
  | (Normal _, ls) => reload (w.1, ls)
  | (Throw _, ls) => (w.1, ls)
  end.

Definition handleSelectProfile (profile : ProfileData) (w : World) : World :=
  (setActiveTab "search" (setData (Some profile) w.1), w.2).

(** [confirmed] is the answer to [window.confirm]. *)
Definition handleClearAll (confirmed : bool) (w : World) : World :=
  if confirmed then
    match storage.clearAll w.2 with
    | (Normal _, ls) => (setSavedProfiles [] w.1, ls)
    | (Throw _, ls) => (w.1, ls)
    end
  else w.

(** [data?.profile?.username ? storage.isProfileSaved(data.profile.username) : false] *)
Definition isCurrentSaved (w : World) : completion bool :=
  match or_opt (data w.1 ≫= profile_username) None with
  | Some username => (storage.isProfileSaved username w.2).1
  | None => Normal false
  end.

(** The [disabled] of a tab: only the compare tab has one. *)
Definition tab_disabled (st : State) (id : string) : bool :=
  bool_decide (id = "compare") && (length (savedProfiles st) <? 2)%nat.

(** The click on a tab: [!tab.disabled && setActiveTab(tab.id)]. *)
Definition clickTab (id : string) (w : World) : World :=
  if negb (tab_disabled w.1 id) then (setActiveTab id w.1, w.2) else w.

(** What the user and the network can do to the application.  [Remove] is
    the click on the remove button of the card of the saved profile at
    position [index]; for [same] see [CardUsername]. *)
Inductive Event :=
| ClickTab (id : string)
| Submit (text : string)
| Settle (response : completion ProfileData) (now : string)
| Select (profile : ProfileData)
| Remove (index : nat) (same : nat → bool)
| ClearAll (confirmed : bool)
| CompareAll
| Back.

(** When an event can happen, as the markup has it: the three tab buttons
    are always there; the form is in the search tab and disabled while
    loading; a request settles while one is pending; the cards of the saved
    profiles with their two buttons, and the clear button, are in the saved
    tab when there are profiles, the compare button when there are two;
    the back button is in the compare tab. *)
Definition enabled (w : World) (ev : Event) : bool :=
  match ev with
  | ClickTab id => bool_decide (id ∈ ["search"; "saved"; "compare"])
  | Submit text => bool_decide (activeTab w.1 = "search") && negb (loading w.1)
  | Settle response now => loading w.1
  | Select profile =>
      bool_decide (activeTab w.1 = "saved") && bool_decide (profile ∈ savedProfiles w.1)
  | Remove index same =>
      bool_decide (activeTab w.1 = "saved") &&
      match savedProfiles w.1 !! index with
      | Some p => bool_decide (profile_username p ≠ None) || same index
      | None => false
      end
  | ClearAll confirmed =>
      bool_decide (activeTab w.1 = "saved") && bool_decide (savedProfiles w.1 ≠ [])
  | CompareAll =>
      bool_decide (activeTab w.1 = "saved") && (2 <=? length (savedProfiles w.1))%nat
  | Back => bool_decide (activeTab w.1 = "compare")
  end.

Definition handle (ev : Event) (w : World) : World :=
  match ev with
  | ClickTab id => clickTab id w
  | Submit text =>
      match SearchBar.handleSubmit text with
      | Some username => handleSearch_begin w
      | None => w
      end
  | Settle response now => handleSearch_end response now w
  | Select profile => handleSelectProfile profile w
  | Remove index same =>
      match savedProfiles w.1 !! index with
      | Some p => handleRemoveProfile (card_username p same) w
      | None => w
      end
  | ClearAll confirmed => handleClearAll confirmed w
  | CompareAll => (setActiveTab "compare" w.1, w.2)
  | Back => (setActiveTab "saved" w.1, w.2)
  end.

(** A run of events, each one enabled when it happens. *)
Fixpoint run (events : list Event) (w : World) : option World :=
  match events with
  | [] => Some w
  | ev :: events' => if enabled w ev then run events' (handle ev w) else None
  end.

End App.

(** A session: two searches that succeed, a look at the saved profiles and
    the comparison. *)
Definition sample_session : list App.Event :=
  [App.Submit "@ada";
   App.Settle (Normal (sample (Some "ada") 80 "Advanced")) "2024-05-01T10:00:00.000Z";
   App.Submit "bob";
   App.Settle (Normal (sample (Some "bob") 60 "Intermediate")) "2024-05-02T10:00:00.000Z";
   App.ClickTab "saved";
   App.CompareAll].

(** The list of saved profiles the application holds is the one the store
    returns. *)
Definition App_consistent (w : App.World) : Prop :=
  App.savedProfiles w.1 = stored w.2.

(** What the first version of the application has of the state. *)
Definition App_project (st : App.State) : App0.State :=
  {| App0.data := App.data st; App0.loading := App.loading st;
     App0.error := App.error st |}.

(** ** [components/SavedProfiles.jsx]: the counts and what is shown *)

Module SavedProfilesView.
Section Component.

Variable toLowerCase : string → string.
Variable localeCompare : string → string → Z.
Variable Date_value : string → option Z.

(** The object [tierCounts]. *)
Definition tierCounts (profiles : list ProfileData) : gmap string nat :=
  <["all" := length profiles]>
  (<["Elite" :=
       length (JSArray.filter (λ p, bool_decide (tier p = Some "Elite")) profiles)]>
  (<["Advanced" :=
       length (JSArray.filter (λ p, bool_decide (tier p = Some "Advanced")) profiles)]>
  (<["Intermediate" :=
       length (JSArray.filter (λ p, bool_decide (tier p = Some "Intermediate")) profiles)]>
  (<["Beginner" :=
       length (JSArray.filter (λ p, bool_decide (tier p = Some "Beginner")) profiles)]>
   ∅)))).

(** The filter buttons, in the order of the markup. *)
Definition tier_buttons : list string :=
  ["all"; "Elite"; "Advanced"; "Intermediate"; "Beginner"].

(** [disabled={tierCounts[tier] === 0}] *)
Definition button_disabled (profiles : list ProfileData) (tier : string) : bool :=
  bool_decide (tierCounts profiles !! tier = Some 0%nat).

Inductive View :=
| NoSavedProfiles                      (* 'No saved profiles yet' *)
| NoMatch                              (* 'No profiles match this filter' *)
| Grid (cards : list ProfileData).

(** What the component shows for its property [profiles] ([None] when it
    is [null] or [undefined]) and its state. *)
Definition render (profiles : option (list ProfileData))
    (filter sortBy sortOrder : string) : View :=
  match profiles with
  | None => NoSavedProfiles
  | Some profiles =>
      if (length profiles =? 0)%nat then NoSavedProfiles
      else
        let filteredProfiles :=
          SavedProfiles.filteredProfiles toLowerCase localeCompare Date_value
            profiles filter sortBy sortOrder in
        if (length filteredProfiles =? 0)%nat then NoMatch else Grid filteredProfiles
  end.

(** The number a sort by [sortBy] other than ['name'] compares, for a
    profile whose date is valid. *)
Definition sort_key (sortBy : string) (p : ProfileData) : Z :=
  if bool_decide (sortBy = "score") then final_score p
  else default 0 (SavedProfiles.sort_date Date_value p).

(** Whether the date a sort by date reads off a profile is valid. *)
Definition date_valid (p : ProfileData) : Prop :=
  is_Some (SavedProfiles.sort_date Date_value p).

End Component.
End SavedProfilesView.

(** ** [components/CompareView.jsx]: the colours and the bars *)

Module CompareViewParts.

Definition colorPalette : list string :=
  ["bg-emerald-400"; "bg-purple-400"; "bg-orange-400"; "bg-blue-400"; "bg-pink-400"].

(** An element of [profileColors]; a field is [None] when it is
    [undefined]. *)
Record ProfileColor := {
  color : option string;
  avatar : option string;
}.

Definition profileColors (profiles : list ProfileData) : list ProfileColor :=
  imap (λ i p, {| color := colorPalette !! (i `mod` length colorPalette)%nat;
                  avatar := profile p ≫= avatar_url |}) profiles.

(** [Math.max(...values)]; [None] is [-Infinity], the maximum of no value. *)
Definition Math_max (values : list Z) : option Z :=
  foldr (λ v acc, Some (from_option (Z.max v) v acc)) None values.

(** For each bar of a [StatBar], whether its value is shown as the maximum:
    [value === max]. *)
Definition StatBar_highlights (values : list Z) : list bool :=
  (λ value, bool_decide (Some value = Math_max values)) <$> values.

End CompareViewParts.

(** ** [components/LoadingState.jsx]: the steps *)

Module LoadingState.

Definition STEPS : list string :=
  ["Connecting to GitHub..."; "Fetching repository data...";
   "Analyzing code patterns..."; "Calculating metrics..."; "Finalizing score..."].

(** What the timer does to [currentStep] each time it fires. *)
Definition tick (prev : nat) : nat :=
  if (prev <? length STEPS - 1)%nat then (prev + 1)%nat else prev.

Inductive Mark := Completed | Current | Upcoming.

Definition mark (currentStep index : nat) : Mark :=
  if (index <? currentStep)%nat then Completed
  else if (index =? currentStep)%nat then Current
  else Upcoming.

(** The marks of the steps, in order. *)
Definition marks (currentStep : nat) : list Mark :=
  imap (λ index step, mark currentStep index) STEPS.

End LoadingState.

(** Values of one metric for four profiles, two of them in the lead. *)
Definition sample_values : list Z := [62; 88; 40; 88].

(** The application over a storage in which two results without a username
    are saved around [ada]. *)
Definition nameless_world : App.World :=
  App.mount
    (save_each [(sample None 70 "Advanced", "2024-05-01T10:00:00.000Z");
                (sample (Some "ada") 80 "Advanced", "2024-05-02T10:00:00.000Z");
                (sample None 40 "Beginner", "2024-05-03T10:00:00.000Z")]
       fresh_storage).2.

(** ** [services/storage.js] over a storage that holds any text *)

(** [localStorage] is open to the user and to the other scripts of the
    page: the text under the key of the store need not be one the store
    wrote.  This second embedding of [services/storage.js] reads any text:
    the serialisation of an array of records, a well-formed JSON text whose
    value is not an array (such as [null], [{}] or [123]), or a text that
    [JSON.parse] rejects.  An array whose elements are not records is not
    modelled.  On a storage without a text of the second kind the
    operations are those of [storage] ([widen] and the lemmas on it). *)
Module anyStore.

Inductive Text :=
| Records (ps : list ProfileData)  (* the text [JSON.stringify] makes of [ps] *)
| NonArray (text : string)         (* the empty text, or a JSON text of a value that is no array *)
| Malformed (text : string).       (* a text that [JSON.parse] rejects *)

(** What [JSON.parse] returns. *)
Inductive Value :=
| Array (ps : list ProfileData)
| NotArray (text : string).

Record LocalStorage := {
  medium : Medium;
  entries : gmap string Text;
}.

Definition Eff (A : Type) : Type := LocalStorage → completion A * LocalStorage.

Definition ret {A} (a : A) : Eff A := λ ls, (Normal a, ls).

Definition bind {A B} (m : Eff A) (f : A → Eff B) : Eff B := λ ls,
  match m ls with
  | (Normal a, ls') => f a ls'
  | (Throw e, ls') => (Throw e, ls')
  end.

Definition try_catch {A} (body : Eff A) (handler : JsError → Eff A) : Eff A :=
  λ ls, match body ls with
        | (Normal a, ls') => (Normal a, ls')
        | (Throw e, ls') => handler e ls'
        end.

Definition lift {A} (c : completion A) : Eff A := λ ls, (c, ls).

Definition getItem (key : string) : Eff (option Text) := λ ls,
  match medium ls with
  | Unavailable => (Throw (DOMException "SecurityError"), ls)
  | _ => (Normal (entries ls !! key), ls)
  end.

Definition setItem (key : string) (value : Text) : Eff unit := λ ls,
  match medium ls with
  | Healthy => (Normal (), {| medium := Healthy; entries := <[key := value]> (entries ls) |})
  | QuotaFull => (Throw (DOMException "QuotaExceededError"), ls)
  | Unavailable => (Throw (DOMException "SecurityError"), ls)
  end.

Definition removeItem (key : string) : Eff unit := λ ls,
  match medium ls with
  | Unavailable => (Throw (DOMException "SecurityError"), ls)
  | m => (Normal (), {| medium := m; entries := delete key (entries ls) |})
  end.

Definition JSON_stringify (ps : list ProfileData) : Text := Records ps.

Definition JSON_parse (t : Text) : completion Value :=
  match t with
  | Records ps => Normal (Array ps)
  | NonArray text =>
      if bool_decide (text = "") then Throw (SyntaxError "Unexpected end of JSON input")
      else Normal (NotArray text)
  | Malformed text => Throw (SyntaxError "Unexpected token")
  end.

(** Truthiness of a stored text: only the empty string is falsy. *)
Definition truthy (t : Text) : bool :=
  match t with
  | Records _ => true
  | NonArray text => bool_decide (text ≠ "")
  | Malformed text => bool_decide (text ≠ "")
  end.

(** The array a method of [Array.prototype] is called on: the call
    [profiles.method(...)] throws a [TypeError] when [profiles] is not an
    array.  Of the message only the name of the method is kept. *)
Definition array_of (profiles : Value) (method : string)
    : completion (list ProfileData) :=
  match profiles with
  | Array ps => Normal ps
  | NotArray text => Throw (TypeError method)
  end.

Definition getSavedProfiles : Eff Value :=
  try_catch
    (bind (getItem storage.STORAGE_KEY) (λ data,
     match data with
     | Some t => if truthy t then lift (JSON_parse t) else ret (Array [])
     | None => ret (Array [])
     end))
    (λ e, ret (Array [])).

Definition saveProfile (profileData : ProfileData) (now : string) : Eff bool :=
  try_catch
    (bind getSavedProfiles (λ profiles,
     let username := storage.username_of profileData in
     bind (lift (array_of profiles "findIndex")) (λ profiles,
     let existingIndex :=
       JSArray.findIndex (λ p, bool_decide (profile_username p = Some username)) profiles in
     let savedProfile := with_savedAt profileData now in
     let profiles :=
       if 0 <=? existingIndex then JSArray.assign profiles existingIndex savedProfile
       else
         let profiles := JSArray.unshift savedProfile profiles in
         if (10 <? length profiles)%nat then JSArray.pop profiles else profiles in
     bind (setItem storage.STORAGE_KEY (JSON_stringify profiles)) (λ _,
     ret true))))
    (λ e, ret false).

Definition removeProfile (username : string) : Eff bool :=
  try_catch
    (bind getSavedProfiles (λ profiles,
     bind (lift (array_of profiles "filter")) (λ profiles,
     let filtered :=
       JSArray.filter (λ p, bool_decide (profile_username p ≠ Some username)) profiles in
     bind (setItem storage.STORAGE_KEY (JSON_stringify filtered)) (λ _,
     ret true))))
    (λ e, ret false).

Definition isProfileSaved (username : string) : Eff bool :=
  bind getSavedProfiles (λ profiles,
  bind (lift (array_of profiles "some")) (λ profiles,
  ret (JSArray.some (λ p, bool_decide (profile_username p = Some username)) profiles))).

Definition clearAll : Eff bool :=
  try_catch
    (bind (removeItem storage.STORAGE_KEY) (λ _, ret true))
    (λ e, ret false).

(** Failures of the medium, and a stored text that [JSON.parse] rejects. *)
Definition getItem_fails (ls : LocalStorage) : Prop :=
  ∃ e, (getItem storage.STORAGE_KEY ls).1 = Throw e.
Definition setItem_fails (ls : LocalStorage) : Prop :=
  ∀ value, ∃ e, (setItem storage.STORAGE_KEY value ls).1 = Throw e.
Definition removeItem_fails (ls : LocalStorage) : Prop :=
  ∃ e, (removeItem storage.STORAGE_KEY ls).1 = Throw e.
Definition unparseable (ls : LocalStorage) : Prop :=
  ∃ t e, (getItem storage.STORAGE_KEY ls).1 = Normal (Some t) ∧
         JSON_parse t = Throw e.

End anyStore.

(** A storage of the first embedding as one of the second. *)
Definition widen_text (t : Text) : anyStore.Text :=
  match t with
  | Serialized ps => anyStore.Records ps
  | Malformed s => anyStore.Malformed s
  end.

Definition widen (ls : LocalStorage) : anyStore.LocalStorage :=
  {| anyStore.medium := medium ls;
     anyStore.entries := widen_text <$> entries ls |}.

(** Storages with the text [null] under the key of the store, with a text
    that is no JSON, and storages whose medium fails. *)
Definition null_stored : anyStore.LocalStorage :=
  {| anyStore.medium := Healthy;
     anyStore.entries := {[ storage.STORAGE_KEY := anyStore.NonArray "null" ]} |}.
Definition null_stored_full : anyStore.LocalStorage :=
  {| anyStore.medium := QuotaFull; anyStore.entries := anyStore.entries null_stored |}.

(** ** Runs of saves against the wording of the first two claims *)

(** Eleven results with pairwise distinct usernames, one of them empty and
    one of them [unknown]. *)
Definition calls_with_empty_username : list (ProfileData * string) :=
  (λ u, (sample (Some u) 50 "Advanced", "2024-05-01T10:00:00.000Z")) <$>
  ["ada"; "unknown"; ""; "u1"; "u2"; "u3"; "u4"; "u5"; "u6"; "u7"; "u8"].

(** A storage in which [ada] is saved, and eleven results with pairwise
    distinct non-empty usernames, [ada] the last but one. *)
Definition ada_saved : LocalStorage :=
  (save_each [(sample (Some "ada") 80 "Advanced", "2024-04-30T10:00:00.000Z")]
     fresh_storage).2.
Definition calls_with_ada : list (ProfileData * string) :=
  (λ u, (sample (Some u) 50 "Advanced", "2024-05-01T10:00:00.000Z")) <$>
  ["u1"; "u2"; "u3"; "u4"; "u5"; "u6"; "u7"; "u8"; "u9"; "ada"; "u10"].


(** * Properties *)

(** ** The monad and the built-ins *)

Lemma getSavedProfiles_stored ls :
  storage.getSavedProfiles ls = (Normal (stored ls), ls).
Proof.
  unfold storage.getSavedProfiles, stored, try_catch, mbind, Eff_bind,
    localStorage.getItem.
  destruct (medium ls); simpl; try done;
    destruct (entries ls !! storage.STORAGE_KEY) as [[ps|s]|]; simpl; try done;
    case_bool_decide; done.
Qed.

Lemma saved_stored ls : saved ls = Normal (stored ls).
Proof. unfold saved. by rewrite getSavedProfiles_stored. Qed.

(** Runs an operation of the store up to its access to the medium. *)
Ltac run_store :=
  unfold storage.saveProfile, storage.removeProfile, storage.isProfileSaved,
    storage.clearAll, try_catch, mbind, Eff_bind;
  rewrite ?getSavedProfiles_stored;
  unfold localStorage.setItem, localStorage.removeItem.

Lemma stored_written ps ls : stored (written ps ls) = ps.
Proof. unfold stored, written. simpl. by rewrite lookup_insert_eq. Qed.

Lemma saveProfile_healthy profileData now ls :
  medium ls = Healthy →
  storage.saveProfile profileData now ls
  = (Normal true, written (save_into (stored ls) (profileData, now)) ls).
Proof.
  intros Hm. run_store. by rewrite Hm.
Qed.

Lemma findIndex_from_bounds {A} (f : A → bool) l i :
  JSArray.findIndex_from f l i = -1 ∨
  i ≤ JSArray.findIndex_from f l i < i + Z.of_nat (length l).
Proof.
  revert i. induction l as [|x l IH]; intros i; simpl; [by left|].
  destruct (f x); [right; lia|].
  destruct (IH (i + 1)) as [->|?]; [by left | right; lia].
Qed.

Lemma findIndex_from_shift {A} (f : A → bool) l i :
  0 ≤ i →
  JSArray.findIndex_from f l i
  = if JSArray.findIndex_from f l 0 =? -1 then -1
    else i + JSArray.findIndex_from f l 0.
Proof.
  revert i. induction l as [|x l IH]; intros i Hi; simpl; [done|].
  destruct (f x); simpl; [f_equal; lia|].
  rewrite (IH (i + 1)), (IH (0 + 1)) by lia.
  destruct (JSArray.findIndex_from f l 0 =? -1) eqn:E; simpl; [done|].
  apply Z.eqb_neq in E.
  destruct (findIndex_from_bounds f l 0) as [?|?]; [done|].
  destruct (Z.eqb_spec (0 + 1 + JSArray.findIndex_from f l 0) (-1)); lia.
Qed.

Lemma findIndex_none {A} (f : A → bool) l :
  JSArray.findIndex f l = -1 ↔ Forall (λ x, f x = false) l.
Proof.
  unfold JSArray.findIndex. induction l as [|x l IH]; simpl.
  - split; [constructor | done].
  - destruct (f x) eqn:E.
    + split; [done | intros H; inv H; congruence].
    + rewrite findIndex_from_shift by lia. rewrite Forall_cons, <- IH.
      destruct (Z.eqb_spec (JSArray.findIndex_from f l 0) (-1)).
      * tauto.
      * destruct (findIndex_from_bounds f l 0); split; intros; try lia; tauto.
Qed.

(** A found index is within the array, its element passes the test, and no
    earlier element does. *)
Lemma findIndex_found {A} (f : A → bool) l :
  0 ≤ JSArray.findIndex f l →
  ∃ x, l !! Z.to_nat (JSArray.findIndex f l) = Some x ∧ f x = true ∧
       ∀ j y, (j < Z.to_nat (JSArray.findIndex f l))%nat → l !! j = Some y → f y = false.
Proof.
  unfold JSArray.findIndex. induction l as [|x l IH]; simpl; [lia|].
  destruct (f x) eqn:E.
  - intros _. exists x. simpl. repeat split; [done|]. intros; lia.
  - rewrite findIndex_from_shift by lia.
    destruct (Z.eqb_spec (JSArray.findIndex_from f l 0) (-1)); [lia|].
    intros _. destruct (findIndex_from_bounds f l 0) as [?|Hb]; [done|].
    destruct IH as (y & Hy & Hfy & Hmin); [lia|].
    replace (Z.to_nat (0 + 1 + JSArray.findIndex_from f l 0))
      with (S (Z.to_nat (JSArray.findIndex_from f l 0))) by lia.
    exists y. simpl. repeat split; [done..|].
    intros [|j] z Hj Hz; simpl in Hz; [by simplify_eq|].
    eapply Hmin; [|done]. lia.
Qed.

(** ** Usernames *)

Lemma or_else_nonempty v d : d ≠ "" → or_else v d ≠ "".
Proof.
  intros Hd. unfold or_else, or_opt.
  destruct v as [s|]; simpl; [|done]. by case_bool_decide.
Qed.

Lemma username_of_nonempty profileData : storage.username_of profileData ≠ "".
Proof. by apply or_else_nonempty. Qed.

(** A record that carries a non-empty username is filed under it. *)
Lemma username_of_present profileData u :
  profile_username profileData = Some u → u ≠ "" →
  storage.username_of profileData = u.
Proof.
  intros Hu Hne. unfold storage.username_of, or_else, or_opt. rewrite Hu.
  by rewrite bool_decide_eq_false_2.
Qed.

Lemma profile_username_stamp call :
  profile_username (stamp call) = profile_username call.1.
Proof. done. Qed.

Lemma username_of_stamp call :
  storage.username_of (stamp call) = storage.username_of call.1.
Proof. done. Qed.

(** ** One save, on the array *)

Lemma pop_take {A} (l : list A) : JSArray.pop l = take (length l - 1) l.
Proof.
  unfold JSArray.pop. rewrite removelast_firstn_len. f_equal. lia.
Qed.

(** A result filed under a username no stored record carries goes to the
    front, and the array is cut back to ten. *)
Lemma save_into_fresh ps call :
  Forall (λ p, has_username (storage.username_of call.1) p = false) ps →
  (length ps ≤ 10)%nat →
  save_into ps call = take 10 (stamp call :: ps).
Proof.
  intros Hfresh Hlen. unfold save_into.
  apply findIndex_none in Hfresh. rewrite Hfresh. simpl (0 <=? -1).
  cbv iota. unfold JSArray.unshift.
  destruct (Nat.ltb_spec 10 (length (stamp call :: ps))) as [Hgt|Hle].
  - rewrite pop_take. f_equal. simpl in *. lia.
  - by rewrite take_ge.
Qed.

(** A result filed under a username some stored record carries replaces the
    first such record where it is. *)
Lemma save_into_existing ps call :
  0 ≤ JSArray.findIndex (has_username (storage.username_of call.1)) ps →
  save_into ps call
  = <[Z.to_nat (JSArray.findIndex (has_username (storage.username_of call.1)) ps)
      := stamp call]> ps.
Proof.
  intros Hi. unfold save_into, JSArray.assign.
  destruct (findIndex_found _ _ Hi) as (x & Hx & _).
  apply lookup_lt_Some in Hx.
  destruct (Z.leb_spec 0 (JSArray.findIndex (has_username (storage.username_of call.1)) ps));
    [|lia].
  destruct (Nat.eqb_spec
    (Z.to_nat (JSArray.findIndex (has_username (storage.username_of call.1)) ps))
    (length ps)); [lia | done].
Qed.

Lemma take_app_take {A} n (l k : list A) :
  take n (l ++ take n k) = take n (l ++ k).
Proof.
  rewrite !take_app, take_take. do 2 f_equal. lia.
Qed.

(** ** A run of saves *)

Lemma foldl_save_into_fresh calls : ∀ ps,
  (length ps ≤ 10)%nat →
  NoDup ((λ call, storage.username_of call.1) <$> calls) →
  (∀ call p, call ∈ calls → p ∈ ps →
     profile_username p ≠ Some (storage.username_of call.1)) →
  foldl save_into ps calls = take 10 (reverse (stamp <$> calls) ++ ps).
Proof.
  induction calls as [|call calls IH]; intros ps Hlen Hnd Hfresh; simpl.
  - by rewrite take_ge.
  - rewrite fmap_cons in Hnd. apply NoDup_cons in Hnd as [Hnotin Hnd].
    rewrite save_into_fresh; [|
      apply Forall_forall; intros p Hp; apply bool_decide_eq_false_2;
      apply Hfresh; [left | done] | done].
    rewrite IH; [| rewrite length_take; lia | done |].
    + rewrite take_app_take, reverse_cons, <- app_assoc. done.
    + intros call' p Hcall' Hp Heq.
      apply elem_of_take in Hp as (i & Hp & _).
      apply list_elem_of_lookup_2 in Hp.
      apply elem_of_cons in Hp as [->|Hp].
      * apply Hnotin. apply list_elem_of_fmap. exists call'. split; [|done].
        rewrite profile_username_stamp in Heq.
        by apply username_of_present; [|apply username_of_nonempty].
      * apply (Hfresh call' p); [by right | done | done].
Qed.

Lemma save_each_healthy calls : ∀ ls,
  medium ls = Healthy →
  ∃ ls', save_each calls ls = (Normal (const true <$> calls), ls') ∧
         medium ls' = Healthy ∧
         stored ls' = foldl save_into (stored ls) calls.
Proof.
  induction calls as [|[profileData now] calls IH]; intros ls Hm; simpl.
  - by exists ls.
  - destruct (IH (written (save_into (stored ls) (profileData, now)) ls))
      as (ls' & Hrun & Hm' & Hst); [done|].
    exists ls'. unfold mbind, Eff_bind. rewrite saveProfile_healthy by done.
    unfold mbind, Eff_bind in Hrun. rewrite Hrun.
    by rewrite Hst, stored_written.
Qed.

(** Results that all carry a non-empty username are filed under pairwise
    distinct usernames as soon as the usernames they carry are pairwise
    distinct. *)
Lemma distinct_usernames_filed_apart (calls : list (ProfileData * string)) :
  Forall (λ call, ∃ u, profile_username call.1 = Some u ∧ u ≠ "") calls →
  NoDup ((λ call, profile_username call.1) <$> calls) →
  NoDup ((λ call, storage.username_of call.1) <$> calls).
Proof.
  induction 1 as [|call calls (u & Hu & Hne) Hall IH]; intros Hnd.
  - constructor.
  - rewrite fmap_cons in *. apply NoDup_cons in Hnd as [Hnotin Hnd].
    apply NoDup_cons. split; [|by apply IH].
    intros (call' & Heq & Hcall')%list_elem_of_fmap. apply Hnotin.
    apply list_elem_of_fmap. exists call'. split; [|done].
    rewrite Forall_forall in Hall. destruct (Hall call' Hcall') as (u' & Hu' & Hne').
    rewrite (username_of_present _ _ Hu Hne), (username_of_present _ _ Hu' Hne') in Heq.
    by rewrite Hu, Hu', Heq.
Qed.

(** C1, amended.  On a storage that accepts writes and holds no profile yet, a run
    of more than ten [saveProfile] calls whose usernames (the ones
    [saveProfile] files them under) are pairwise distinct succeeds at every
    call and leaves exactly the ten most recently saved results, the most
    recent first.  The same holds after every prefix of the run, so the
    store never holds more than ten records and each call past the tenth
    evicts the oldest one. *)
Theorem save_each_keeps_ten_most_recent
    (calls : list (ProfileData * string)) (ls : LocalStorage) :
  medium ls = Healthy →
  saved ls = Normal [] →
  NoDup ((λ call, storage.username_of call.1) <$> calls) →
  (10 < length calls)%nat →
  (save_each calls ls).1 = Normal (const true <$> calls) ∧
  (∃ ps, saved (save_each calls ls).2 = Normal ps ∧
         ps = stamp <$> take 10 (reverse calls) ∧ length ps = 10%nat) ∧
  (∀ k, ∃ ps, saved (save_each (take k calls) ls).2 = Normal ps ∧
              ps = stamp <$> take 10 (reverse (take k calls)) ∧
              (length ps ≤ 10)%nat).
Proof.
  intros Hm Hempty Hnd Hlen.
  rewrite saved_stored in Hempty. injection Hempty as Hempty.
  assert (Hrun : ∀ cs, cs `prefix_of` calls →
    ∃ ls', save_each cs ls = (Normal (const true <$> cs), ls') ∧
           stored ls' = stamp <$> take 10 (reverse cs)).
  { intros cs [rest ->].
    destruct (save_each_healthy cs ls Hm) as (ls' & Hrun & _ & Hst).
    exists ls'. split; [done|]. rewrite Hst, Hempty.
    rewrite foldl_save_into_fresh; [| simpl; lia | |].
    - by rewrite app_nil_r, fmap_take, fmap_reverse.
    - rewrite fmap_app in Hnd. by apply NoDup_app in Hnd as [? _].
    - intros ?? _ Hp. by apply elem_of_nil in Hp. }
  split; [|split].
  - destruct (Hrun calls) as (ls' & -> & _); done.
  - destruct (Hrun calls) as (ls' & -> & Hst); [done|]. simpl.
    exists (stored ls'). rewrite saved_stored, Hst. repeat split.
    rewrite length_fmap, length_take, length_reverse. lia.
  - intros k. destruct (Hrun (take k calls)) as (ls' & -> & Hst).
    { apply prefix_take. }
    simpl. exists (stored ls'). rewrite saved_stored, Hst. repeat split.
    rewrite length_fmap, length_take. lia.
Qed.

Lemma save_each_keeps_ten_most_recent_witness :
  (10 < length eleven_calls)%nat ∧
  saved (save_each eleven_calls fresh_storage).2
  = Normal (stamp <$> take 10 (reverse eleven_calls)).
Proof.
  split; [simpl; lia|].
  destruct (save_each_keeps_ten_most_recent eleven_calls fresh_storage)
    as (_ & (ps & -> & -> & _) & _);
    [reflexivity | reflexivity | | simpl; lia | reflexivity].
  refine (bool_decide_unpack _ _). vm_compute. exact I.
Defined.

(** C1 as stated fails.  Eleven results with pairwise distinct
    usernames, saved into an empty store: the result with the empty
    username is filed under [unknown], the username of an earlier result,
    and replaces that result in place, so the ten records left are not the
    ten most recently saved ones ([ada], the oldest, is still there and
    [unknown] is gone).  And with [ada] already in the store, eleven saves
    with pairwise distinct usernames of which the last but one is [ada]:
    that save rewrites the record of [ada] where it stands, at the end, and
    the next save evicts it, while the older [u1] stays. *)
Lemma save_each_distinct_usernames_not_most_recent :
  (medium fresh_storage = Healthy ∧
   saved fresh_storage = Normal [] ∧
   NoDup ((λ call, profile_username call.1) <$> calls_with_empty_username) ∧
   (10 < length calls_with_empty_username)%nat ∧
   ∃ ps, saved (save_each calls_with_empty_username fresh_storage).2 = Normal ps ∧
         profile_username <$> ps
         = Some <$> ["u8"; "u7"; "u6"; "u5"; "u4"; "u3"; "u2"; "u1"; ""; "ada"] ∧
         profile_username <$> (stamp <$> take 10 (reverse calls_with_empty_username))
         = Some <$> ["u8"; "u7"; "u6"; "u5"; "u4"; "u3"; "u2"; "u1"; ""; "unknown"] ∧
         ps ≠ stamp <$> take 10 (reverse calls_with_empty_username)) ∧
  (medium ada_saved = Healthy ∧
   profile_username <$> stored ada_saved = [Some "ada"] ∧
   NoDup ((λ call, storage.username_of call.1) <$> calls_with_ada) ∧
   (10 < length calls_with_ada)%nat ∧
   ∃ ps, saved (save_each calls_with_ada ada_saved).2 = Normal ps ∧
         profile_username <$> ps
         = Some <$> ["u10"; "u9"; "u8"; "u7"; "u6"; "u5"; "u4"; "u3"; "u2"; "u1"] ∧
         profile_username <$> (stamp <$> take 10 (reverse calls_with_ada))
         = Some <$> ["u10"; "ada"; "u9"; "u8"; "u7"; "u6"; "u5"; "u4"; "u3"; "u2"] ∧
         ps ≠ stamp <$> take 10 (reverse calls_with_ada)).
Proof.
  split.
  - split; [done|]. split; [done|].
    split; [refine (bool_decide_unpack _ _); vm_compute; exact I|].
    split; [simpl; lia|].
    eexists. split; [apply saved_stored|].
    split; [vm_compute; reflexivity|]. split; [vm_compute; reflexivity|].
    intros H. apply (f_equal (fmap profile_username)) in H.
    vm_compute in H. discriminate H.
  - split; [done|]. split; [done|].
    split; [refine (bool_decide_unpack _ _); vm_compute; exact I|].
    split; [simpl; lia|].
    eexists. split; [apply saved_stored|].
    split; [vm_compute; reflexivity|]. split; [vm_compute; reflexivity|].
    intros H. apply (f_equal (fmap profile_username)) in H.
    vm_compute in H. discriminate H.
Qed.

(** ** Saving under a username the store already has *)




(** ** Membership, saving and removing *)

Lemma isProfileSaved_stored u ls :
  storage.isProfileSaved u ls
  = (Normal (JSArray.some (has_username u) (stored ls)), ls).
Proof.
  by run_store.
Qed.

Lemma removeProfile_healthy u ls :
  medium ls = Healthy →
  storage.removeProfile u ls
  = (Normal true,
     written (JSArray.filter (λ p, bool_decide (profile_username p ≠ Some u)) (stored ls)) ls).
Proof.
  intros Hm. run_store. by rewrite Hm.
Qed.

(** The record a save writes is in the array it leaves. *)
Lemma stamp_in_save_into ps call : stamp call ∈ save_into ps call.
Proof.
  destruct (Z.leb_spec 0
    (JSArray.findIndex (has_username (storage.username_of call.1)) ps)) as [Hi|Hi].
  - rewrite save_into_existing by done.
    destruct (findIndex_found _ _ Hi) as (x & Hx & _).
    apply list_elem_of_lookup. eexists. apply list_lookup_insert_eq.
    by eapply lookup_lt_Some.
  - unfold save_into. destruct (Z.leb_spec 0
      (JSArray.findIndex (has_username (storage.username_of call.1)) ps)); [lia|].
    unfold JSArray.unshift.
    destruct (Nat.ltb_spec 10 (length (stamp call :: ps))) as [Hgt|Hle]; [|by left].
    rewrite pop_take. simpl in Hgt.
    replace (length (stamp call :: ps) - 1)%nat with (S (length ps - 1))
      by (simpl; lia).
    by left.
Qed.

Lemma some_has_username u ps :
  JSArray.some (has_username u) ps = true ↔
  ∃ p, p ∈ ps ∧ profile_username p = Some u.
Proof.
  unfold JSArray.some. rewrite existsb_exists. split.
  - intros (p & Hp & Hu). exists p. split; [by apply list_elem_of_In|].
    by apply bool_decide_eq_true_1 in Hu.
  - intros (p & Hp & Hu). exists p. split; [by apply list_elem_of_In|].
    by apply bool_decide_eq_true_2.
Qed.

Lemma JSArray_filter_stdpp {A} (P : A → Prop) `{!∀ x, Decision (P x)} (l : list A) :
  JSArray.filter (λ x, bool_decide (P x)) l = filter P l.
Proof.
  unfold JSArray.filter. induction l as [|x l IH]; simpl; [done|].
  rewrite filter_cons. destruct (decide (P x)) as [HP|HP].
  - rewrite bool_decide_eq_true_2 by done. by rewrite IH.
  - by rewrite bool_decide_eq_false_2.
Qed.

Lemma filter_all {A} (P : A → Prop) `{!∀ x, Decision (P x)} (l : list A) :
  Forall P l → filter P l = l.
Proof.
  induction 1 as [|x l HP _ IH]; [done|].
  by rewrite filter_cons, decide_True, IH.
Qed.

(** C9.  On a storage that accepts writes: saving a result whose username
    is [u] succeeds and [isProfileSaved u] is true right after;
    [removeProfile u] returns true, leaves exactly the stored records whose
    username is not [u], in their order, so [isProfileSaved u] is false
    right after; and when no stored record has the username [u] the stored
    records are the same after [removeProfile u] as before. *)
Theorem isProfileSaved_after_save_and_remove (ls : LocalStorage) (u : string) :
  medium ls = Healthy →
  (∀ profileData now, profile_username profileData = Some u →
     ∃ ls', storage.saveProfile profileData now ls = (Normal true, ls') ∧
            storage.isProfileSaved u ls' = (Normal true, ls')) ∧
  (∃ ls', storage.removeProfile u ls = (Normal true, ls') ∧
          storage.isProfileSaved u ls' = (Normal false, ls') ∧
          saved ls' = Normal (filter (λ p, profile_username p ≠ Some u) (stored ls)) ∧
          ((∀ p, p ∈ stored ls → profile_username p ≠ Some u) → saved ls' = saved ls)).
Proof.
  intros Hm. split.
  - intros profileData now Hu. eexists. split; [by apply saveProfile_healthy|].
    rewrite isProfileSaved_stored, stored_written. do 2 f_equal.
    apply some_has_username. exists (stamp (profileData, now)).
    split; [apply stamp_in_save_into | done].
  - eexists. split; [by apply removeProfile_healthy|].
    rewrite isProfileSaved_stored, !saved_stored, stored_written, JSArray_filter_stdpp.
    split; [|split; [done|]].
    + do 2 f_equal. apply not_true_is_false. rewrite some_has_username.
      intros (p & Hp & Hu). apply list_elem_of_filter in Hp as [Hne _]. done.
    + intros Habs. f_equal. apply filter_all.
      by apply Forall_forall.
Qed.

Lemma isProfileSaved_after_save_and_remove_witness :
  (∃ ls',
     storage.saveProfile (sample (Some "ada") 85 "Elite") "2024-05-03T10:00:00.000Z"
       ada_then_bob = (Normal true, ls') ∧
     storage.isProfileSaved "ada" ls' = (Normal true, ls')) ∧
  (∃ ls',
     storage.removeProfile "ada" ada_then_bob = (Normal true, ls') ∧
     storage.isProfileSaved "ada" ls' = (Normal false, ls') ∧
     saved ls'
     = Normal [stamp (sample (Some "bob") 60 "Intermediate", "2024-05-02T10:00:00.000Z")]).
Proof.
  destruct (isProfileSaved_after_save_and_remove ada_then_bob "ada")
    as (Hsave & ls' & Hrm & Hsaved & Hlist & _); [reflexivity|].
  split.
  - apply Hsave. reflexivity.
  - exists ls'. split; [exact Hrm|]. split; [exact Hsaved|]. exact Hlist.
Defined.

(** ** Results without a username *)

(** C10, what the code does.  [saveProfile] looks a result without a
    username up under ['unknown'] but stores it as it came, without a
    username, so the next such result does not find it: on a fresh working
    storage two results without a username are both kept, the second in
    front of the first, and neither is saved under ['unknown']. *)
Theorem saveProfile_without_username_twice
    (a b : ProfileData) (now_a now_b : string) :
  profile_username a = None →
  profile_username b = None →
  ∃ ls',
    save_each [(a, now_a); (b, now_b)] fresh_storage = (Normal [true; true], ls') ∧
    saved ls' = Normal [with_savedAt b now_b; with_savedAt a now_a] ∧
    storage.isProfileSaved "unknown" ls' = (Normal false, ls').
Proof.
  intros Ha Hb.
  destruct (save_each_healthy [(a, now_a); (b, now_b)] fresh_storage)
    as (ls' & Hrun & _ & Hst); [done|].
  exists ls'. split; [done|].
  assert (Hno : ∀ (p : ProfileData) now u,
            profile_username p = None → has_username u (stamp (p, now)) = false).
  { intros p now u Hp. apply bool_decide_eq_false_2.
    rewrite profile_username_stamp. simpl. by rewrite Hp. }
  assert (Hlist : stored ls' = [with_savedAt b now_b; with_savedAt a now_a]).
  { rewrite Hst. change (stored fresh_storage) with (@nil ProfileData). simpl.
    rewrite (save_into_fresh [] (a, now_a)); [|constructor | simpl; lia].
    rewrite save_into_fresh; [done | | simpl; lia].
    repeat constructor. by apply Hno. }
  split; [by rewrite saved_stored, Hlist|].
  rewrite isProfileSaved_stored, Hlist. simpl.
  by rewrite (Hno b now_b), (Hno a now_a).
Qed.

Lemma saveProfile_without_username_twice_witness :
  ∃ ls',
    save_each [(sample None 70 "Advanced", "2024-05-01T10:00:00.000Z");
               (sample None 40 "Beginner", "2024-05-02T10:00:00.000Z")] fresh_storage
    = (Normal [true; true], ls') ∧
    saved ls'
    = Normal [with_savedAt (sample None 40 "Beginner") "2024-05-02T10:00:00.000Z";
              with_savedAt (sample None 70 "Advanced") "2024-05-01T10:00:00.000Z"] ∧
    storage.isProfileSaved "unknown" ls' = (Normal false, ls').
Proof.
  apply (saveProfile_without_username_twice
           (sample None 70 "Advanced") (sample None 40 "Beginner"));
    reflexivity.
Defined.

(** ** Failures of the storage *)

Lemma getItem_fails_unavailable ls : getItem_fails ls ↔ medium ls = Unavailable.
Proof.
  unfold getItem_fails, localStorage.getItem.
  destruct (medium ls); simpl; split; try done; try (by intros [? ?]).
  by eexists.
Qed.

Lemma setItem_fails_unhealthy ls : setItem_fails ls ↔ medium ls ≠ Healthy.
Proof.
  unfold setItem_fails, localStorage.setItem.
  destruct (medium ls); simpl; split; try done.
  - intros H. by destruct (H (Serialized [])).
  - intros _ ?. by eexists.
  - intros _ ?. by eexists.
Qed.

Lemma removeItem_fails_unavailable ls : removeItem_fails ls ↔ medium ls = Unavailable.
Proof.
  unfold removeItem_fails, localStorage.removeItem.
  destruct (medium ls); simpl; split; try done; try (by intros [? ?]).
  by eexists.
Qed.

Lemma saveProfile_unhealthy profileData now ls :
  medium ls ≠ Healthy → storage.saveProfile profileData now ls = (Normal false, ls).
Proof.
  intros Hm. run_store. by destruct (medium ls).
Qed.

Lemma removeProfile_unhealthy u ls :
  medium ls ≠ Healthy → storage.removeProfile u ls = (Normal false, ls).
Proof.
  intros Hm. run_store. by destruct (medium ls).
Qed.

(** ** The store over a storage that holds any text *)

Ltac run_any :=
  unfold anyStore.saveProfile, anyStore.removeProfile, anyStore.isProfileSaved,
    anyStore.clearAll, anyStore.getSavedProfiles, anyStore.try_catch,
    anyStore.bind, anyStore.lift, anyStore.ret, anyStore.getItem,
    anyStore.setItem, anyStore.removeItem.

(** What [getSavedProfiles] returns, by the medium and the stored text. *)
Lemma anyStore_getSavedProfiles_cases ls :
  anyStore.getSavedProfiles ls
  = (Normal
       match anyStore.medium ls with
       | Unavailable => anyStore.Array []
       | _ =>
           match anyStore.entries ls !! storage.STORAGE_KEY with
           | Some (anyStore.Records ps) => anyStore.Array ps
           | Some (anyStore.NonArray text) =>
               if bool_decide (text ≠ "") then anyStore.NotArray text
               else anyStore.Array []
           | _ => anyStore.Array []
           end
       end, ls).
Proof.
  run_any.
  destruct (anyStore.medium ls); simpl; try done;
    destruct (anyStore.entries ls !! storage.STORAGE_KEY) as [[ps|text|text]|];
    simpl; try done; repeat case_bool_decide; done.
Qed.


Lemma widen_lookup ls :
  anyStore.entries (widen ls) !! storage.STORAGE_KEY
  = widen_text <$> entries ls !! storage.STORAGE_KEY.
Proof. unfold widen. simpl. by rewrite lookup_fmap. Qed.

(** On a storage of the first embedding the operations of the two
    embeddings agree. *)
Lemma widen_getSavedProfiles ls :
  anyStore.getSavedProfiles (widen ls)
  = (Normal (anyStore.Array (stored ls)), widen ls).
Proof.
  rewrite anyStore_getSavedProfiles_cases, widen_lookup. unfold stored.
  change (anyStore.medium (widen ls)) with (medium ls).
  destruct (medium ls); try done;
    by destruct (entries ls !! storage.STORAGE_KEY) as [[ps|s]|].
Qed.

Lemma widen_written ps ls :
  medium ls = Healthy →
  {| anyStore.medium := Healthy;
     anyStore.entries :=
       <[storage.STORAGE_KEY := anyStore.Records ps]> (anyStore.entries (widen ls)) |}
  = widen (written ps ls).
Proof.
  intros Hm. unfold widen, written. simpl. by rewrite fmap_insert.
Qed.

Lemma widen_saveProfile profileData now ls :
  anyStore.saveProfile profileData now (widen ls)
  = ((storage.saveProfile profileData now ls).1,
     widen (storage.saveProfile profileData now ls).2).
Proof.
  unfold anyStore.saveProfile, anyStore.try_catch, anyStore.bind at 1.
  rewrite widen_getSavedProfiles.
  destruct (decide (medium ls = Healthy)) as [Hm|Hm].
  - rewrite saveProfile_healthy by done. simpl.
    rewrite <- widen_written by done. run_any.
    change (anyStore.medium (widen ls)) with (medium ls). by rewrite Hm.
  - rewrite saveProfile_unhealthy by done. run_any. simpl.
    change (anyStore.medium (widen ls)) with (medium ls).
    by destruct (medium ls).
Qed.

Lemma widen_removeProfile u ls :
  anyStore.removeProfile u (widen ls)
  = ((storage.removeProfile u ls).1, widen (storage.removeProfile u ls).2).
Proof.
  unfold anyStore.removeProfile, anyStore.try_catch, anyStore.bind at 1.
  rewrite widen_getSavedProfiles.
  destruct (decide (medium ls = Healthy)) as [Hm|Hm].
  - rewrite removeProfile_healthy by done. simpl.
    rewrite <- widen_written by done. run_any.
    change (anyStore.medium (widen ls)) with (medium ls). by rewrite Hm.
  - rewrite removeProfile_unhealthy by done. run_any. simpl.
    change (anyStore.medium (widen ls)) with (medium ls).
    by destruct (medium ls).
Qed.

Lemma widen_isProfileSaved u ls :
  anyStore.isProfileSaved u (widen ls)
  = ((storage.isProfileSaved u ls).1, widen (storage.isProfileSaved u ls).2).
Proof.
  unfold anyStore.isProfileSaved, anyStore.bind at 1.
  rewrite widen_getSavedProfiles, isProfileSaved_stored. done.
Qed.

Lemma widen_clearAll ls :
  anyStore.clearAll (widen ls)
  = ((storage.clearAll ls).1, widen (storage.clearAll ls).2).
Proof.
  run_store. run_any.
  change (anyStore.medium (widen ls)) with (medium ls).
  destruct (medium ls); simpl; try done;
    unfold widen; simpl; by rewrite fmap_delete.
Qed.




(** ** The tier filter *)

(** C6.  With the filter ["all"] every profile passes, unchanged and in
    order.  With any other filter [t] exactly the profiles whose tier is
    [t] pass, in their original order. *)
Theorem filterByTier_all_and_tier (profiles : list ProfileData) (t : string) :
  t ≠ "all" →
  SavedProfiles.filterByTier profiles "all" = profiles ∧
  SavedProfiles.filterByTier profiles t = filter (λ p, tier p = Some t) profiles ∧
  SavedProfiles.filterByTier profiles t `sublist_of` profiles ∧
  (∀ p, p ∈ SavedProfiles.filterByTier profiles t ↔ p ∈ profiles ∧ tier p = Some t).
Proof.
  intros Ht. split; [done|].
  assert (Heq : SavedProfiles.filterByTier profiles t
                = filter (λ p, tier p = Some t) profiles).
  { unfold SavedProfiles.filterByTier. rewrite bool_decide_eq_false_2 by done.
    apply (JSArray_filter_stdpp (λ p, tier p = Some t)). }
  rewrite Heq. split; [done|]. split; [apply sublist_filter|].
  intros p. rewrite list_elem_of_filter. tauto.
Qed.

Lemma filterByTier_all_and_tier_witness :
  SavedProfiles.filterByTier three_scores "all" = three_scores ∧
  SavedProfiles.filterByTier three_scores "Elite" = [sample (Some "ada") 90 "Elite"].
Proof.
  destruct (filterByTier_all_and_tier three_scores "Elite") as (Hall & Helite & _);
    [discriminate|].
  split; [exact Hall|]. rewrite Helite. reflexivity.
Defined.

(** ** Sorting *)

Section sort.
Context {A : Type} (cmp : A → A → Z).

Lemma sort_insert_Permutation x l : JSArray.sort_insert cmp x l ≡ₚ x :: l.
Proof.
  induction l as [|y l IH]; simpl; [done|].
  destruct (cmp x y <=? 0); [done|]. by rewrite IH, Permutation_swap.
Qed.

Lemma sort_Permutation l : JSArray.sort cmp l ≡ₚ l.
Proof.
  induction l as [|x l IH]; simpl; [done|].
  by rewrite sort_insert_Permutation, IH.
Qed.

(** Each of two elements may stand before the other, or one of them. *)
Hypothesis cmp_total : ∀ x y, cmp x y ≤ 0 ∨ cmp y x ≤ 0.

Lemma sort_insert_Sorted x l :
  Sorted (before cmp) l → Sorted (before cmp) (JSArray.sort_insert cmp x l).
Proof.
  induction 1 as [|y l Hl IH Hhd]; simpl; [by repeat constructor|].
  destruct (Z.leb_spec (cmp x y) 0) as [Hxy|Hxy].
  - by repeat constructor.
  - constructor; [done|].
    destruct Hhd as [|z l Hyz]; simpl.
    + constructor. unfold before. destruct (cmp_total x y); lia.
    + destruct (cmp x z <=? 0); constructor; [|done].
      unfold before. destruct (cmp_total x y); lia.
Qed.

Lemma sort_Sorted l : Sorted (before cmp) (JSArray.sort cmp l).
Proof.
  induction l as [|x l IH]; simpl; [constructor|]. by apply sort_insert_Sorted.
Qed.

End sort.

(** Stability: the elements of a class [P] whose members may each stand
    before the others keep the order they have in the input. *)
Section stable.
Context {A : Type} (cmp : A → A → Z) (P : A → Prop) `{!∀ x, Decision (P x)}.
Hypothesis cmp_tie : ∀ x y, P x → P y → cmp x y ≤ 0.

Lemma filter_sort_insert x l :
  filter P (JSArray.sort_insert cmp x l) = filter P (x :: l).
Proof.
  induction l as [|y l IH]; simpl; [done|].
  destruct (Z.leb_spec (cmp x y) 0) as [Hxy|Hxy]; [done|].
  rewrite (filter_cons _ y), IH, !filter_cons.
  destruct (decide (P x)) as [Hx|Hx], (decide (P y)) as [Hy|Hy]; try done.
  specialize (cmp_tie x y Hx Hy). lia.
Qed.

Lemma filter_sort l : filter P (JSArray.sort cmp l) = filter P l.
Proof.
  induction l as [|x l IH]; simpl; [done|].
  by rewrite filter_sort_insert, !filter_cons, IH.
Qed.

End stable.

Lemma score_descending_transitive : Transitive score_descending.
Proof. unfold score_descending. intros a b c ??. lia. Qed.

Lemma equal_scores_equal (profiles : list ProfileData) a b :
  NoDup (final_score <$> profiles) →
  a ∈ profiles → b ∈ profiles → final_score a = final_score b → a = b.
Proof.
  induction profiles as [|p profiles IH]; intros Hnd Ha Hb Heq.
  - by apply elem_of_nil in Ha.
  - rewrite fmap_cons in Hnd. apply NoDup_cons in Hnd as [Hnotin Hnd].
    apply elem_of_cons in Ha as [->|Ha], Hb as [->|Hb]; [done| | |by apply IH].
    + exfalso. apply Hnotin. rewrite Heq. by apply list_elem_of_fmap_2.
    + exfalso. apply Hnotin. rewrite <- Heq. by apply list_elem_of_fmap_2.
Qed.

Lemma Sorted_weaken {A} (R1 R2 : relation A) l :
  (∀ x y, R1 x y → R2 x y) → Sorted R1 l → Sorted R2 l.
Proof.
  intros HR. induction 1 as [|x l _ IH Hhd]; constructor; [done|].
  destruct Hhd; constructor; auto.
Qed.

Section comparator.
Context (toLowerCase : string → string) (localeCompare : string → string → Z)
(Date_value : string → option Z).

Lemma comparator_score_desc a b :
SavedProfiles.comparator toLowerCase localeCompare Date_value "score" "desc" a b
= - (final_score a - final_score b).
Proof. done. Qed.

Lemma comparator_score_asc a b :
SavedProfiles.comparator toLowerCase localeCompare Date_value "score" "asc" a b
= final_score a - final_score b.
Proof. done. Qed.

Lemma sortProfiles_score_desc_Sorted profiles :
Sorted score_descending
  (SavedProfiles.sortProfiles toLowerCase localeCompare Date_value profiles "score" "desc").
Proof.
eapply Sorted_weaken; [|apply sort_Sorted].
- intros x y. unfold before. rewrite comparator_score_desc.
  unfold score_descending. lia.
- intros x y. rewrite !comparator_score_desc. lia.
Qed.

Lemma sortProfiles_score_asc_Sorted profiles :
Sorted score_ascending
  (SavedProfiles.sortProfiles toLowerCase localeCompare Date_value profiles "score" "asc").
Proof.
eapply Sorted_weaken; [|apply sort_Sorted].
- intros x y. unfold before. rewrite comparator_score_asc.
  unfold score_ascending. lia.
- intros x y. rewrite !comparator_score_asc. lia.
Qed.

End comparator.

(** C7.  When no two profiles have the same score, sorting by score in
    descending order gives the reverse of sorting the same profiles by
    score in ascending order. *)
Theorem sortProfiles_score_desc_reverse_asc
    (toLowerCase : string → string) (localeCompare : string → string → Z)
    (Date_value : string → option Z) (profiles : list ProfileData) :
  NoDup (final_score <$> profiles) →
  SavedProfiles.sortProfiles toLowerCase localeCompare Date_value profiles "score" "desc"
  = reverse
      (SavedProfiles.sortProfiles toLowerCase localeCompare Date_value profiles "score" "asc").
Proof.
  intros Hnd.
  apply (StronglySorted_unique_strong score_descending).
  - intros a b Ha Hb Hab Hba. apply (equal_scores_equal profiles); [done| | |].
    + revert Ha. unfold SavedProfiles.sortProfiles. by rewrite sort_Permutation.
    + revert Hb. unfold SavedProfiles.sortProfiles.
      by rewrite reverse_Permutation, sort_Permutation.
    + unfold score_descending in *. lia.
  - apply Sorted_StronglySorted; [apply score_descending_transitive|]. apply sortProfiles_score_desc_Sorted.
  - apply Sorted_StronglySorted; [apply score_descending_transitive|].
    apply (Sorted_reverse score_ascending), sortProfiles_score_asc_Sorted.
  - unfold SavedProfiles.sortProfiles.
    by rewrite reverse_Permutation, !sort_Permutation.
Qed.

Lemma sortProfiles_score_desc_reverse_asc_witness :
  final_score <$>
    SavedProfiles.sortProfiles id (λ _ _, 0) (λ _, Some 0) three_scores "score" "desc"
  = [90; 75; 60] ∧
  final_score <$>
    reverse (SavedProfiles.sortProfiles id (λ _ _, 0) (λ _, Some 0) three_scores "score" "asc")
  = [90; 75; 60].
Proof.
  rewrite <- (sortProfiles_score_desc_reverse_asc id (λ _ _, 0) (λ _, Some 0) three_scores).
  - split; reflexivity.
  - refine (bool_decide_unpack _ _). vm_compute. exact I.
Defined.

(** ** Ranking *)

(** C8.  For two or more profiles [CompareView] shows the leaderboard of
    the ranked profiles.  The ranking is a rearrangement of the profiles in
    descending order of score, in which the profiles of any one score keep
    the order they have in the input.  Profiles with the scores 90, 60, 75
    are ranked 90, 75, 60. *)
Theorem ranked_descending_stable (profiles : list ProfileData) :
  (2 ≤ length profiles)%nat →
  CompareView.CompareView (Some profiles)
  = CompareView.Leaderboard (CompareView.ranked profiles) profiles ∧
  CompareView.ranked profiles ≡ₚ profiles ∧
  StronglySorted score_descending (CompareView.ranked profiles) ∧
  (∀ v, filter (λ p, final_score p = v) (CompareView.ranked profiles)
        = filter (λ p, final_score p = v) profiles) ∧
  (∀ a b c, final_score a = 90 → final_score b = 60 → final_score c = 75 →
            CompareView.ranked [a; b; c] = [a; c; b]).
Proof.
  intros Hlen. split; [|split; [|split; [|split]]].
  - unfold CompareView.CompareView.
    by destruct (Nat.ltb_spec (length profiles) 2); [lia|].
  - apply sort_Permutation.
  - apply Sorted_StronglySorted; [apply score_descending_transitive|].
    eapply Sorted_weaken; [|apply sort_Sorted].
    + intros x y. unfold before, score_descending. lia.
    + intros x y. lia.
  - intros v. apply filter_sort. intros x y Hx Hy. lia.
  - intros a b c Ha Hb Hc. unfold CompareView.ranked.
    cbn [JSArray.sort JSArray.sort_insert]. rewrite Hb, Hc.
    change (75 - 60 <=? 0) with false. cbn [JSArray.sort_insert].
    by rewrite Ha, Hc.
Qed.

Lemma ranked_descending_stable_witness :
  CompareView.CompareView (Some three_scores)
  = CompareView.Leaderboard
      [sample (Some "ada") 90 "Elite"; sample (Some "cyd") 75 "Advanced";
       sample (Some "bob") 60 "Intermediate"]
      three_scores.
Proof.
  destruct (ranked_descending_stable three_scores) as (Hview & _ & _ & _ & Hex);
    [simpl; lia|].
  rewrite Hview. unfold three_scores. by rewrite Hex.
Defined.

(** C3.  Given fewer than two profiles, or none at all, [CompareView]
    itself refuses: it returns the view that reports that at least two
    profiles are needed, and no leaderboard. *)
Theorem CompareView_refuses_fewer_than_two (profiles : list ProfileData) :
  (length profiles < 2)%nat →
  CompareView.CompareView (Some profiles)
  = CompareView.NeedTwoProfiles "Need at least 2 profiles to compare" ∧
  CompareView.CompareView None
  = CompareView.NeedTwoProfiles "Need at least 2 profiles to compare" ∧
  ∀ ranked cards,
    CompareView.CompareView (Some profiles) ≠ CompareView.Leaderboard ranked cards.
Proof.
  intros Hlen.
  assert (Hview : CompareView.CompareView (Some profiles)
                  = CompareView.NeedTwoProfiles "Need at least 2 profiles to compare").
  { unfold CompareView.CompareView.
    by destruct (Nat.ltb_spec (length profiles) 2); [|lia]. }
  split; [done|]. split; [done|]. intros ranked cards. by rewrite Hview.
Qed.

Lemma CompareView_refuses_fewer_than_two_witness :
  CompareView.CompareView (Some [sample (Some "ada") 90 "Elite"])
  = CompareView.NeedTwoProfiles "Need at least 2 profiles to compare".
Proof.
  apply (CompareView_refuses_fewer_than_two [sample (Some "ada") 90 "Elite"]).
  simpl. lia.
Defined.

(** ** The API client *)

(** C4 as stated fails: the error thrown for an unsuccessful response is
    the same whatever the status, so the status cannot be read off it.  A
    404 and a 500 response give the same failure. *)
Lemma rateDeveloper_failure_drops_status :
  api.rateDeveloper (λ _, Normal not_found) "octocat"
  = api.rateDeveloper (λ _, Normal server_error) "octocat" ∧
  api.status not_found ≠ api.status server_error ∧
  ¬ failure_carries_status.
Proof.
  split; [done|]. split; [done|].
  intros (status_of & H).
  destruct (H (λ _, Normal not_found) "octocat" not_found eq_refl eq_refl)
    as (e1 & He1 & Hs1).
  destruct (H (λ _, Normal server_error) "octocat" server_error eq_refl eq_refl)
    as (e2 & He2 & Hs2).
  unfold api.rateDeveloper in He1, He2. simpl in He1, He2.
  injection He1 as <-. injection He2 as <-.
  rewrite Hs1 in Hs2. discriminate Hs2.
Qed.

(** C4, amended.  When the response is not successful [rateDeveloper]
    fails with the error [Error('Failed to rate developer')], which has a
    message and no status.  When the request cannot be completed it fails
    with the reason [fetch] rejected with, unchanged.  A caller can tell
    the two failures apart whenever that reason is not a plain [Error]
    (the Fetch standard rejects with a [TypeError]). *)
Theorem rateDeveloper_failures
    (fetch : api.Request → completion api.Response) (username : string) :
  (∀ response, fetch (api.rate_request username) = Normal response →
     api.ok response = false →
     api.rateDeveloper fetch username = Throw (Error "Failed to rate developer")) ∧
  (∀ e, fetch (api.rate_request username) = Throw e →
     api.rateDeveloper fetch username = Throw e) ∧
  (∀ e fetch' response,
     fetch (api.rate_request username) = Throw e →
     (∀ message, e ≠ Error message) →
     fetch' (api.rate_request username) = Normal response →
     api.ok response = false →
     api.rateDeveloper fetch username ≠ api.rateDeveloper fetch' username).
Proof.
  assert (Hremote : ∀ f response, f (api.rate_request username) = Normal response →
     api.ok response = false →
     api.rateDeveloper f username = Throw (Error "Failed to rate developer")).
  { intros f response Hf Hok. unfold api.rateDeveloper. by rewrite Hf, Hok. }
  assert (Hnet : ∀ e, fetch (api.rate_request username) = Throw e →
     api.rateDeveloper fetch username = Throw e).
  { intros e Hf. unfold api.rateDeveloper. by rewrite Hf. }
  split; [by apply Hremote|]. split; [done|].
  intros e fetch' response Hf He Hf' Hok.
  rewrite (Hnet e Hf), (Hremote fetch' response Hf' Hok).
  intros [= ->]. by apply (He "Failed to rate developer").
Qed.

Lemma rateDeveloper_failures_witness :
  api.rateDeveloper (λ _, Normal not_found) "octocat"
  = Throw (Error "Failed to rate developer") ∧
  api.rateDeveloper (λ _, Throw (TypeError "Failed to fetch")) "octocat"
  = Throw (TypeError "Failed to fetch") ∧
  api.rateDeveloper (λ _, Throw (TypeError "Failed to fetch")) "octocat"
  ≠ api.rateDeveloper (λ _, Normal not_found) "octocat".
Proof.
  destruct (rateDeveloper_failures (λ _, Normal not_found) "octocat")
    as (Hremote & _ & _).
  destruct (rateDeveloper_failures (λ _, Throw (TypeError "Failed to fetch")) "octocat")
    as (_ & Hnet & Hdiff).
  split; [|split].
  - apply (Hremote not_found); reflexivity.
  - apply Hnet. reflexivity.
  - apply (Hdiff (TypeError "Failed to fetch") (λ _, Normal not_found) not_found);
      [reflexivity | discriminate | reflexivity | reflexivity].
Defined.

(** * Further properties of the store *)

(** ** What an operation does to the stored array *)

Lemma clearAll_cases ls :
  storage.clearAll ls
  = if decide (medium ls = Unavailable) then (Normal false, ls)
    else (Normal true,
          {| medium := medium ls;
             entries := delete storage.STORAGE_KEY (entries ls) |}).
Proof. run_store. by destruct (medium ls). Qed.

Lemma stored_after_delete m (entries0 : gmap string Text) :
  stored {| medium := m; entries := delete storage.STORAGE_KEY entries0 |} = [].
Proof. unfold stored. simpl. rewrite lookup_delete_eq. by destruct m. Qed.

(** Every writing operation ends normally, keeps the medium and the other
    keys, and leaves the stored array as it was, or as one save, one
    removal or the clearing makes it. *)
Lemma run_op_outcome op ls :
  ∃ b ls',
    run_op op ls = (Normal b, ls') ∧
    medium ls' = medium ls ∧
    (∀ key, key ≠ storage.STORAGE_KEY → entries ls' !! key = entries ls !! key) ∧
    (stored ls' = stored ls ∨
     (∃ call, stored ls' = save_into (stored ls) call) ∨
     (∃ u, stored ls' = filter (λ p, profile_username p ≠ Some u) (stored ls)) ∨
     stored ls' = []).
Proof.
  destruct op as [profileData now|u|]; simpl.
  - destruct (decide (medium ls = Healthy)) as [Hm|Hm].
    + rewrite saveProfile_healthy by done. do 2 eexists. split; [done|].
      split; [done|]. split.
      * intros key Hkey. simpl. by rewrite lookup_insert_ne.
      * right. left. eexists. apply stored_written.
    + rewrite saveProfile_unhealthy by done. do 2 eexists. split; [done|].
      repeat split. by left.
  - destruct (decide (medium ls = Healthy)) as [Hm|Hm].
    + rewrite removeProfile_healthy by done. do 2 eexists. split; [done|].
      split; [done|]. split.
      * intros key Hkey. simpl. by rewrite lookup_insert_ne.
      * right. right. left. exists u.
        by rewrite stored_written, JSArray_filter_stdpp.
    + rewrite removeProfile_unhealthy by done. do 2 eexists. split; [done|].
      repeat split. by left.
  - rewrite clearAll_cases. destruct (decide (medium ls = Unavailable)) as [Hm|Hm].
    + do 2 eexists. split; [done|]. repeat split. by left.
    + do 2 eexists. split; [done|]. split; [done|]. split.
      * intros key Hkey. simpl. by rewrite lookup_delete_ne.
      * do 3 right. apply stored_after_delete.
Qed.

(** A property of the stored array that the empty array has and that each
    save and each removal keeps is kept by every run of operations. *)
Lemma run_ops_invariant (P : list ProfileData → Prop) :
  P [] →
  (∀ ps call, P ps → P (save_into ps call)) →
  (∀ ps u, P ps → P (filter (λ p, profile_username p ≠ Some u) ps)) →
  ∀ ops ls, P (stored ls) →
    ∃ bs ls', run_ops ops ls = (Normal bs, ls') ∧
              length bs = length ops ∧
              medium ls' = medium ls ∧
              (∀ key, key ≠ storage.STORAGE_KEY →
                 entries ls' !! key = entries ls !! key) ∧
              P (stored ls').
Proof.
  intros Hnil Hsave Hremove. induction ops as [|op ops IH]; intros ls HP; simpl.
  - by exists [], ls.
  - destruct (run_op_outcome op ls) as (b & ls1 & Hop & Hm1 & Hk1 & Hst).
    assert (HP1 : P (stored ls1)).
    { destruct Hst as [->|[(call & ->)|[(u & ->)| ->]]]; auto. }
    destruct (IH ls1 HP1) as (bs & ls' & Hrun & Hlen & Hm' & Hk' & HP').
    exists (b :: bs), ls'. unfold mbind, Eff_bind. rewrite Hop.
    unfold mbind, Eff_bind in Hrun. rewrite Hrun.
    split; [done|]. split; [simpl; lia|]. split; [congruence|].
    split; [|done]. intros key Hkey. rewrite Hk', Hk1; done.
Qed.

Lemma length_save_into ps call :
  length (save_into ps call) = length ps ∨
  (length (save_into ps call) = S (length ps) ∧ (length ps < 10)%nat).
Proof.
  destruct (Z.leb_spec 0
    (JSArray.findIndex (has_username (storage.username_of call.1)) ps)) as [Hi|Hi].
  - left. rewrite save_into_existing by done. apply length_insert.
  - unfold save_into. destruct (Z.leb_spec 0
      (JSArray.findIndex (has_username (storage.username_of call.1)) ps)); [lia|].
    unfold JSArray.unshift.
    destruct (Nat.ltb_spec 10 (length (stamp call :: ps))) as [Hgt|Hle].
    + left. rewrite pop_take, length_take. simpl in *. lia.
    + right. simpl in *. lia.
Qed.

(** X1.  Whatever operations run, and whether their writes succeed or
    not, each ends normally with a boolean and the store never holds more
    records than ten, or than it held at the start if that was more. *)
Theorem run_ops_capacity (ops : list StoreOp) (ls : LocalStorage) :
  ∃ bs ls' ps,
    run_ops ops ls = (Normal bs, ls') ∧
    length bs = length ops ∧
    saved ls' = Normal ps ∧
    (length ps ≤ 10 `max` length (stored ls))%nat ∧
    ((length (stored ls) ≤ 10)%nat → (length ps ≤ 10)%nat).
Proof.
  destruct (run_ops_invariant
              (λ ps, (length ps ≤ 10 `max` length (stored ls))%nat))
    with (ops := ops) (ls := ls) as (bs & ls' & Hrun & Hlen & _ & _ & HP).
  - simpl. lia.
  - intros ps call Hps. destruct (length_save_into ps call); lia.
  - intros ps u Hps. pose proof (length_filter (λ p, profile_username p ≠ Some u) ps).
    lia.
  - lia.
  - exists bs, ls', (stored ls'). rewrite saved_stored. repeat split; [done..|lia].
Qed.

Lemma run_ops_capacity_witness :
  ∃ ps, saved (run_ops sample_ops fresh_storage).2 = Normal ps ∧ (length ps ≤ 10)%nat.
Proof.
  destruct (run_ops_capacity sample_ops fresh_storage)
    as (bs & ls' & ps & Hrun & _ & Hsaved & _ & Hten).
  exists ps. rewrite Hrun. split; [exact Hsaved|]. apply Hten.
  change (stored fresh_storage) with (@nil ProfileData). simpl. lia.
Defined.

(** ** One record for each username *)

Lemma carried_username_Some p u :
  carried_username p = Some u ↔ profile_username p = Some u ∧ u ≠ "".
Proof.
  unfold carried_username, or_opt.
  destruct (profile_username p) as [v|]; [|by split; [|intros [? _]]].
  destruct (bool_decide_reflect (v = "")) as [->|Hv]; split.
  - done.
  - by intros [[= ->] ?].
  - by intros [= ->].
  - by intros [[= ->] _].
Qed.

Lemma carried_username_stamp call :
  carried_username (stamp call) = carried_username call.1.
Proof. done. Qed.

Lemma carried_username_filed profileData u :
  carried_username profileData = Some u → storage.username_of profileData = u.
Proof. intros [Hu Hne]%carried_username_Some. by apply username_of_present. Qed.

Lemma omap_sublist {A B} (f : A → option B) (l k : list A) :
  l `sublist_of` k → omap f l `sublist_of` omap f k.
Proof.
  induction 1 as [|x l k _ IH|x l k _ IH]; simpl.
  - constructor.
  - destruct (f x); [by constructor | done].
  - destruct (f x); [by constructor | done].
Qed.

Lemma save_into_keeps_unique ps call :
  NoDup (carried_usernames ps) → NoDup (carried_usernames (save_into ps call)).
Proof.
  intros Hnd. unfold carried_usernames in *.
  destruct (Z.leb_spec 0
    (JSArray.findIndex (has_username (storage.username_of call.1)) ps)) as [Hi|Hi].
  - rewrite save_into_existing by done.
    destruct (findIndex_found _ _ Hi) as (q & Hq & Hfq & _).
    apply bool_decide_eq_true_1 in Hfq.
    rewrite insert_take_drop by (by eapply lookup_lt_Some).
    rewrite <- (take_drop_middle ps _ q Hq) in Hnd.
    rewrite omap_app in *. simpl in *.
    assert (Hcq : carried_username q = Some (storage.username_of call.1)).
    { apply carried_username_Some. split; [done | apply username_of_nonempty]. }
    rewrite Hcq in Hnd. rewrite carried_username_stamp.
    destruct (carried_username call.1) as [u|] eqn:Hc.
    + by rewrite <- (carried_username_filed _ _ Hc).
    + eapply sublist_NoDup; [done|].
      apply sublist_app; [done|]. by apply sublist_cons.
  - assert (Hnone : JSArray.findIndex (has_username (storage.username_of call.1)) ps = -1).
    { destruct (findIndex_from_bounds (has_username (storage.username_of call.1)) ps 0);
        unfold JSArray.findIndex in *; lia. }
    apply findIndex_none in Hnone. rewrite Forall_forall in Hnone.
    apply (sublist_NoDup _ (omap carried_username (stamp call :: ps))).
    + simpl. rewrite carried_username_stamp.
      destruct (carried_username call.1) as [u|] eqn:Hc; [|done].
      apply NoDup_cons. split; [|done].
      intros (p & Hp & Hcp)%list_elem_of_omap.
      apply carried_username_Some in Hcp as [Hup _].
      specialize (Hnone p Hp). unfold has_username in Hnone.
      rewrite (carried_username_filed _ _ Hc) in Hnone.
      by rewrite bool_decide_eq_true_2 in Hnone.
    + apply omap_sublist. unfold save_into.
      destruct (Z.leb_spec 0
        (JSArray.findIndex (has_username (storage.username_of call.1)) ps)); [lia|].
      unfold JSArray.unshift. destruct (10 <? _)%nat; [|done].
      rewrite pop_take. apply sublist_take.
Qed.

Lemma filter_none {A} (P : A → Prop) `{!∀ x, Decision (P x)} (l : list A) :
  Forall (λ x, ¬ P x) l → filter P l = [].
Proof.
  induction 1 as [|x l HP _ IH]; [done|].
  by rewrite filter_cons, decide_False.
Qed.

Lemma unique_at_most_one ps u :
  NoDup (carried_usernames ps) → u ≠ "" →
  (length (filter (λ p, profile_username p = Some u) ps) ≤ 1)%nat.
Proof.
  intros Hnd Hne. induction ps as [|p ps IH]; simpl; [lia|].
  unfold carried_usernames in *. simpl in Hnd. rewrite filter_cons.
  destruct (decide (profile_username p = Some u)) as [Hp|Hp].
  - assert (Hc : carried_username p = Some u) by by apply carried_username_Some.
    rewrite Hc in Hnd. apply NoDup_cons in Hnd as [Hnotin _].
    rewrite (filter_none _ ps); [simpl; lia|].
    apply Forall_forall. intros q Hq Hqu. apply Hnotin.
    apply list_elem_of_omap. exists q. split; [done|].
    by apply carried_username_Some.
  - apply IH. destruct (carried_username p); [|done].
    by apply NoDup_cons in Hnd as [_ ?].
Qed.

(** X2.  When no two stored records carry the same non-empty username,
    then after any run of operations the same holds: for every non-empty
    username the store has at most one record. *)
Theorem run_ops_usernames_unique (ops : list StoreOp) (ls : LocalStorage) :
  NoDup (carried_usernames (stored ls)) →
  ∃ bs ls' ps,
    run_ops ops ls = (Normal bs, ls') ∧
    saved ls' = Normal ps ∧
    NoDup (carried_usernames ps) ∧
    ∀ u, u ≠ "" → (length (filter (λ p, profile_username p = Some u) ps) ≤ 1)%nat.
Proof.
  intros Hnd.
  destruct (run_ops_invariant (λ ps, NoDup (carried_usernames ps)))
    with (ops := ops) (ls := ls) as (bs & ls' & Hrun & _ & _ & _ & HP).
  - constructor.
  - intros ps call. apply save_into_keeps_unique.
  - intros ps u Hps. eapply sublist_NoDup; [done|].
    apply omap_sublist, sublist_filter.
  - done.
  - exists bs, ls', (stored ls'). rewrite saved_stored.
    split; [done|]. split; [done|]. split; [done|].
    intros u Hu. by apply unique_at_most_one.
Qed.

Lemma run_ops_usernames_unique_witness :
  ∃ ps, saved (run_ops sample_ops fresh_storage).2 = Normal ps ∧
        (length (filter (λ p, profile_username p = Some "kim") ps) ≤ 1)%nat.
Proof.
  destruct (run_ops_usernames_unique sample_ops fresh_storage)
    as (bs & ls' & ps & Hrun & Hsaved & _ & Hone).
  - constructor.
  - exists ps. rewrite Hrun. split; [exact Hsaved|]. apply Hone. discriminate.
Defined.

(** ** The store and the rest of the storage *)

(** X3.  Reading the store changes nothing in the storage.  A run of
    writing operations changes nothing but the value under the key of the
    store: every other key keeps its value. *)
Theorem store_touches_only_its_key
    (ops : list StoreOp) (ls : LocalStorage) (u : string) :
  (storage.getSavedProfiles ls).2 = ls ∧
  (storage.isProfileSaved u ls).2 = ls ∧
  medium (run_ops ops ls).2 = medium ls ∧
  ∀ key, key ≠ storage.STORAGE_KEY →
    entries (run_ops ops ls).2 !! key = entries ls !! key.
Proof.
  rewrite getSavedProfiles_stored, isProfileSaved_stored.
  destruct (run_ops_invariant (λ _, True)) with (ops := ops) (ls := ls)
    as (bs & ls' & -> & _ & Hm & Hkeys & _); done.
Qed.

Lemma store_touches_only_its_key_witness :
  entries (run_ops sample_ops shared_storage).2 !! "theme" = Some (Malformed "dark").
Proof.
  destruct (store_touches_only_its_key sample_ops shared_storage "ada")
    as (_ & _ & _ & Hkeys).
  rewrite Hkeys; [reflexivity | discriminate].
Defined.

(** ** Clearing *)

(** X4.  [clearAll] returns true unless removing the key fails; either
    way, right after it [getSavedProfiles] returns the empty array and
    [isProfileSaved] is false for every username. *)
Theorem clearAll_empties (ls : LocalStorage) (u : string) :
  ∃ b ls',
    storage.clearAll ls = (Normal b, ls') ∧
    (b = true ↔ ¬ removeItem_fails ls) ∧
    saved ls' = Normal [] ∧
    storage.isProfileSaved u ls' = (Normal false, ls').
Proof.
  rewrite clearAll_cases. destruct (decide (medium ls = Unavailable)) as [Hm|Hm].
  - exists false, ls. split; [done|]. split.
    + split; [done|]. intros Hok. by apply removeItem_fails_unavailable in Hm.
    + rewrite isProfileSaved_stored, saved_stored. unfold stored. by rewrite Hm.
  - eexists true, _. split; [done|]. split.
    + split; [|done]. intros _. by rewrite removeItem_fails_unavailable.
    + by rewrite isProfileSaved_stored, saved_stored, stored_after_delete.
Qed.

(** ** Saving and removing *)

(** X5.  On a storage that accepts writes and holds at most ten records,
    none of them with the non-empty username [u]: saving a result with the
    username [u] and then removing [u] leaves the first nine records of the
    store, which is the whole store when it held fewer than ten. *)
Theorem save_then_remove (ls : LocalStorage) (profileData : ProfileData)
    (now u : string) :
  medium ls = Healthy →
  profile_username profileData = Some u → u ≠ "" →
  (∀ p, p ∈ stored ls → profile_username p ≠ Some u) →
  (length (stored ls) ≤ 10)%nat →
  ∃ ls1 ls2,
    storage.saveProfile profileData now ls = (Normal true, ls1) ∧
    storage.removeProfile u ls1 = (Normal true, ls2) ∧
    saved ls2 = Normal (take 9 (stored ls)) ∧
    ((length (stored ls) < 10)%nat → saved ls2 = saved ls).
Proof.
  intros Hm Hu Hne Hfresh Hlen.
  do 2 eexists. split; [by apply saveProfile_healthy|].
  split; [by apply removeProfile_healthy|].
  rewrite !saved_stored, !stored_written, JSArray_filter_stdpp.
  rewrite (save_into_fresh (stored ls) (profileData, now)); [| |done].
  - change (take 10 (stamp (profileData, now) :: stored ls))
      with (stamp (profileData, now) :: take 9 (stored ls)).
    rewrite filter_cons, decide_False by (intros Hs; by apply Hs).
    rewrite filter_all.
    + split; [done|]. intros Hlt. by rewrite take_ge by lia.
    + apply Forall_forall. intros p Hp. apply Hfresh.
      by eapply elem_of_sublist; [|apply sublist_take].
  - apply Forall_forall. intros p Hp. apply bool_decide_eq_false_2.
    simpl. rewrite (username_of_present _ _ Hu Hne). by apply Hfresh.
Qed.

Lemma save_then_remove_witness :
  ∃ ls1 ls2,
    storage.saveProfile (sample (Some "eve") 90 "Elite") "2024-05-03T10:00:00.000Z"
      ada_then_bob = (Normal true, ls1) ∧
    storage.removeProfile "eve" ls1 = (Normal true, ls2) ∧
    saved ls2 = saved ada_then_bob.
Proof.
  destruct (save_then_remove ada_then_bob (sample (Some "eve") 90 "Elite")
              "2024-05-03T10:00:00.000Z" "eve")
    as (ls1 & ls2 & Hsave & Hrm & _ & Hsame);
    [reflexivity | reflexivity | discriminate | | vm_compute; lia |].
  - intros p Hp. change (stored ada_then_bob) with
      [stamp (sample (Some "bob") 60 "Intermediate", "2024-05-02T10:00:00.000Z");
       stamp (sample (Some "ada") 80 "Advanced", "2024-05-01T10:00:00.000Z")] in Hp.
    apply elem_of_cons in Hp as [->|Hp]; [discriminate|].
    apply elem_of_cons in Hp as [->|Hp]; [discriminate|].
    by apply elem_of_nil in Hp.
  - exists ls1, ls2. split; [exact Hsave|]. split; [exact Hrm|].
    apply Hsame. vm_compute. lia.
Defined.

Lemma removeProfile_cases u ls :
  storage.removeProfile u ls
  = if decide (medium ls = Healthy)
    then (Normal true,
          written (filter (λ p, profile_username p ≠ Some u) (stored ls)) ls)
    else (Normal false, ls).
Proof.
  destruct (decide (medium ls = Healthy)).
  - rewrite removeProfile_healthy by done. by rewrite JSArray_filter_stdpp.
  - by apply removeProfile_unhealthy.
Qed.

(** X6.  Removing two usernames leaves the same storage in either order,
    and removing a username a second time changes nothing more. *)
Theorem removeProfile_commutes (ls : LocalStorage) (u v : string) :
  (storage.removeProfile v (storage.removeProfile u ls).2).2
  = (storage.removeProfile u (storage.removeProfile v ls).2).2 ∧
  (storage.removeProfile u (storage.removeProfile u ls).2).2
  = (storage.removeProfile u ls).2.
Proof.
  rewrite !(removeProfile_cases _ ls).
  destruct (decide (medium ls = Healthy)) as [Hm|Hm]; simpl.
  - rewrite !removeProfile_cases. simpl. rewrite !stored_written.
    unfold written. simpl. rewrite !insert_insert_eq.
    split; do 3 f_equal.
    + rewrite !list_filter_filter. apply list_filter_iff. tauto.
    + rewrite list_filter_filter. apply list_filter_iff. tauto.
  - rewrite !removeProfile_cases. by rewrite !decide_False.
Qed.

(** ** The fallback username and a user of that name *)

Lemma username_of_fallback profileData :
  carried_username profileData = None → storage.username_of profileData = "unknown".
Proof.
  unfold carried_username, storage.username_of, or_else, or_opt.
  destruct (profile_username profileData) as [v|]; [|done].
  by case_bool_decide.
Qed.

(** X7.  On a storage that accepts writes, in which one record has the
    username ['unknown'] and no two records carry the same non-empty
    username: saving a result whose username is missing or empty succeeds,
    keeps the number of records, and overwrites the record of ['unknown'],
    so that [isProfileSaved('unknown')] is false afterwards. *)
Theorem saveProfile_without_username_overwrites_unknown
    (ls : LocalStorage) (profileData : ProfileData) (now : string) (p : ProfileData) :
  medium ls = Healthy →
  carried_username profileData = None →
  p ∈ stored ls → profile_username p = Some "unknown" →
  NoDup (carried_usernames (stored ls)) →
  ∃ ls' i,
    storage.saveProfile profileData now ls = (Normal true, ls') ∧
    stored ls !! i = Some p ∧
    saved ls' = Normal (<[i := with_savedAt profileData now]> (stored ls)) ∧
    length (stored ls') = length (stored ls) ∧
    storage.isProfileSaved "unknown" ls' = (Normal false, ls').
Proof.
  intros Hm Hc Hp Hu Hnd.
  pose proof (username_of_fallback _ Hc) as Hkey.
  set (f := has_username "unknown").
  assert (Hi : 0 ≤ JSArray.findIndex f (stored ls)).
  { destruct (findIndex_from_bounds f (stored ls) 0) as [Hnone|?];
      [|unfold JSArray.findIndex; lia].
    apply findIndex_none in Hnone. rewrite Forall_forall in Hnone.
    specialize (Hnone p Hp). unfold f, has_username in Hnone.
    by rewrite bool_decide_eq_true_2 in Hnone. }
  destruct (findIndex_found f (stored ls) Hi) as (q & Hq & Hfq & _).
  apply bool_decide_eq_true_1 in Hfq.
  set (i := Z.to_nat (JSArray.findIndex f (stored ls))) in *.
  assert (Hsplit : stored ls = take i (stored ls) ++ q :: drop (S i) (stored ls))
    by by rewrite take_drop_middle.
  assert (Hcq : carried_username q = Some "unknown")
    by by apply carried_username_Some.
  (* the record of [unknown] is the only one of that name *)
  assert (Hothers : ∀ r, r ∈ take i (stored ls) ++ drop (S i) (stored ls) →
                         profile_username r ≠ Some "unknown").
  { intros r Hr Hru. rewrite Hsplit in Hnd. unfold carried_usernames in Hnd.
    rewrite omap_app in Hnd. simpl in Hnd. rewrite Hcq in Hnd.
    assert (Hcr : carried_username r = Some "unknown")
      by by apply carried_username_Some.
    apply NoDup_app in Hnd as (_ & Hdisj & Hnd).
    apply NoDup_cons in Hnd as [Hnotin _].
    apply elem_of_app in Hr as [Hr|Hr].
    - apply (Hdisj "unknown"); [|by left].
      apply list_elem_of_omap. by exists r.
    - apply Hnotin. apply list_elem_of_omap. by exists r. }
  assert (Hpq : p = q).
  { rewrite Hsplit in Hp. apply elem_of_app in Hp as [Hp|Hp].
    - exfalso. apply (Hothers p); [|done]. apply elem_of_app. by left.
    - apply elem_of_cons in Hp as [?|Hp]; [done|].
      exfalso. apply (Hothers p); [|done]. apply elem_of_app. by right. }
  subst q.
  assert (Hnew : save_into (stored ls) (profileData, now)
                 = <[i := with_savedAt profileData now]> (stored ls)).
  { rewrite save_into_existing; simpl; rewrite Hkey; [done | exact Hi]. }
  exists (written (save_into (stored ls) (profileData, now)) ls), i.
  split; [by apply saveProfile_healthy|]. split; [done|].
  rewrite saved_stored, isProfileSaved_stored, !stored_written, Hnew.
  split; [done|]. split; [apply length_insert|].
  do 2 f_equal. apply not_true_is_false. rewrite some_has_username.
  intros (r & Hr & Hru).
  rewrite insert_take_drop in Hr by (by eapply lookup_lt_Some).
  apply elem_of_app in Hr as [Hr|Hr].
  - apply (Hothers r); [|done]. apply elem_of_app. by left.
  - apply elem_of_cons in Hr as [->|Hr].
    + assert (carried_username (with_savedAt profileData now) = Some "unknown")
        by by apply carried_username_Some.
      change (carried_username (with_savedAt profileData now))
        with (carried_username profileData) in *. congruence.
    + apply (Hothers r); [|done]. apply elem_of_app. by right.
Qed.

Lemma saveProfile_without_username_overwrites_unknown_witness :
  ∃ ls',
    storage.saveProfile (sample None 40 "Beginner") "2024-05-03T10:00:00.000Z"
      unknown_then_ada = (Normal true, ls') ∧
    storage.isProfileSaved "unknown" unknown_then_ada = (Normal true, unknown_then_ada) ∧
    storage.isProfileSaved "unknown" ls' = (Normal false, ls').
Proof.
  destruct (saveProfile_without_username_overwrites_unknown unknown_then_ada
              (sample None 40 "Beginner") "2024-05-03T10:00:00.000Z"
              (stamp (sample (Some "unknown") 77 "Advanced", "2024-05-01T10:00:00.000Z")))
    as (ls' & i & Hsave & _ & _ & _ & Hgone).
  - reflexivity.
  - reflexivity.
  - change (stored unknown_then_ada) with
      [stamp (sample (Some "ada") 80 "Advanced", "2024-05-02T10:00:00.000Z");
       stamp (sample (Some "unknown") 77 "Advanced", "2024-05-01T10:00:00.000Z")].
    do 2 constructor.
  - reflexivity.
  - refine (bool_decide_unpack _ _). vm_compute. exact I.
  - exists ls'. split; [exact Hsave|]. split; [reflexivity | exact Hgone].
Defined.

(** * The search form *)

Lemma trimStart_chars_nil l :
  SearchBar.trimStart_chars l = [] ↔ Forall (λ c, SearchBar.isWhiteSpace c = true) l.
Proof.
  induction l as [|c l IH]; simpl; [by split; [constructor|]|].
  destruct (SearchBar.isWhiteSpace c) eqn:Hc.
  - rewrite IH. split; [by constructor | by inversion 1].
  - split; [done | inversion 1; congruence].
Qed.

(** What [trimStart] leaves starts with a character that is no white space. *)
Lemma trimStart_chars_blank l :
  Forall (λ c, SearchBar.isWhiteSpace c = true) (SearchBar.trimStart_chars l) →
  SearchBar.trimStart_chars l = [].
Proof.
  induction l as [|c l IH]; simpl; [done|].
  destruct (SearchBar.isWhiteSpace c) eqn:Hc; [done|].
  inversion 1; congruence.
Qed.

Lemma trim_empty s :
  SearchBar.trim s = "" ↔
  Forall (λ c, SearchBar.isWhiteSpace c = true) (String.list_ascii_of_string s).
Proof.
  unfold SearchBar.trim.
  set (t := SearchBar.trimStart_chars (String.list_ascii_of_string s)).
  assert (Hnil : ∀ l, String.string_of_list_ascii l = "" ↔ l = []).
  { intros [|c l]; simpl; by split. }
  rewrite Hnil. split.
  - intros Hrev. apply trimStart_chars_nil.
    assert (Ht : SearchBar.trimStart_chars (rev t) = []).
    { apply (f_equal (@rev Ascii.ascii)) in Hrev. by rewrite rev_involutive in Hrev. }
    apply trimStart_chars_nil in Ht. apply trimStart_chars_blank.
    apply Forall_forall. intros c Hc. rewrite Forall_forall in Ht.
    apply Ht. apply list_elem_of_In, in_rev. rewrite rev_involutive.
    by apply list_elem_of_In.
  - intros Hblank. apply trimStart_chars_nil in Hblank.
    unfold t. by rewrite Hblank.
Qed.

(** X8.  [handleSubmit] searches unless every character of the input is
    white space.  It searches for the input as typed, without one leading
    [@] when there is one, and with its white space.  The name searched for
    is empty exactly when the input is ["@"]. *)
Theorem handleSubmit_searches (username : string) :
  (SearchBar.handleSubmit username = None ↔
   Forall (λ c, SearchBar.isWhiteSpace c = true) (String.list_ascii_of_string username)) ∧
  (∀ v, SearchBar.handleSubmit username = Some v →
     (username = "@" +:+ v ∨ (username = v ∧ ∀ rest, username ≠ "@" +:+ rest)) ∧
     (v = "" ↔ username = "@")).
Proof.
  unfold SearchBar.handleSubmit. split.
  - rewrite <- trim_empty. case_bool_decide as Ht; split; try done.
  - intros v. case_bool_decide as Ht; [|done]. intros [= <-].
    assert (Hne : username ≠ "") by (intros ->; by apply Ht).
    destruct username as [|c rest]; [done|]. simpl.
    case_bool_decide as Hc.
    + injection Hc as ->. split; [by left|].
      split; [by intros -> | by intros [= ->]].
    + split.
      * right. split; [done|]. intros rest' [= -> _]. by destruct Hc.
      * split; [done|]. intros [= -> _]. by destruct Hc.
Qed.

Lemma handleSubmit_searches_witness :
  SearchBar.handleSubmit "@octocat" = Some "octocat" ∧
  SearchBar.handleSubmit "   " = None ∧
  SearchBar.handleSubmit "@" = Some "".
Proof.
  destruct (handleSubmit_searches "   ") as [Hblank _].
  destruct (handleSubmit_searches "@") as [_ Hat].
  split; [reflexivity|]. split.
  - apply Hblank. repeat constructor.
  - destruct (Hat "" eq_refl) as [_ Hempty]. reflexivity.
Defined.

(** * The API client: the other calls *)

(** X10.  [getUserData] and [healthCheck] return a value only when the
    server answered with a successful status, and then the value the body
    parses to.  When they fail it is with the reason [fetch] rejected with,
    with the reason the parsing of a successful response failed with, or,
    for every unsuccessful status alike, with their own fixed message. *)
Theorem getUserData_healthCheck_outcomes {Body : Type}
    (fetch : api.Request → completion (apiCalls.Response Body)) (username : string) :
  (∀ v, apiCalls.getUserData fetch username = Normal v →
     ∃ response, fetch (apiCalls.user_data_request username) = Normal response ∧
                 200 ≤ apiCalls.status response ≤ 299 ∧
                 apiCalls.json response = Normal v) ∧
  (∀ e, apiCalls.getUserData fetch username = Throw e →
     fetch (apiCalls.user_data_request username) = Throw e ∨
     ∃ response, fetch (apiCalls.user_data_request username) = Normal response ∧
       ((¬ 200 ≤ apiCalls.status response ≤ 299 ∧ e = Error "Failed to fetch user data") ∨
        (200 ≤ apiCalls.status response ≤ 299 ∧ apiCalls.json response = Throw e))) ∧
  (∀ v, apiCalls.healthCheck fetch = Normal v →
     ∃ response, fetch apiCalls.health_request = Normal response ∧
                 200 ≤ apiCalls.status response ≤ 299 ∧
                 apiCalls.json response = Normal v) ∧
  (∀ e, apiCalls.healthCheck fetch = Throw e →
     fetch apiCalls.health_request = Throw e ∨
     ∃ response, fetch apiCalls.health_request = Normal response ∧
       ((¬ 200 ≤ apiCalls.status response ≤ 299 ∧ e = Error "Health check failed") ∨
        (200 ≤ apiCalls.status response ≤ 299 ∧ apiCalls.json response = Throw e))).
Proof.
  assert (Hok : ∀ response : apiCalls.Response Body,
            apiCalls.ok response = true ↔ 200 ≤ apiCalls.status response ≤ 299).
  { intros response. unfold apiCalls.ok. rewrite andb_true_iff, !Z.leb_le. tauto. }
  unfold apiCalls.getUserData, apiCalls.healthCheck.
  repeat split.
  - intros v. destruct (fetch _) as [response|e]; [|done].
    destruct (apiCalls.ok response) eqn:Hr; simpl; [|done].
    intros Hv. exists response. by rewrite <- Hok.
  - intros e. destruct (fetch _) as [response|e']; [|intros [= ->]; by left].
    destruct (apiCalls.ok response) eqn:Hr; simpl; intros He; right; exists response.
    + split; [done|]. right. by rewrite <- Hok.
    + split; [done|]. left. rewrite <- Hok, Hr. split; [done | congruence].
  - intros v. destruct (fetch _) as [response|e]; [|done].
    destruct (apiCalls.ok response) eqn:Hr; simpl; [|done].
    intros Hv. exists response. by rewrite <- Hok.
  - intros e. destruct (fetch _) as [response|e']; [|intros [= ->]; by left].
    destruct (apiCalls.ok response) eqn:Hr; simpl; intros He; right; exists response.
    + split; [done|]. right. by rewrite <- Hok.
    + split; [done|]. left. rewrite <- Hok, Hr. split; [done | congruence].
Qed.

Lemma getUserData_healthCheck_outcomes_witness :
  apiCalls.getUserData
    (λ _, Normal {| apiCalls.status := 503; apiCalls.json := Normal "maintenance" |})
    "octocat"
  = Throw (Error "Failed to fetch user data").
Proof.
  destruct (getUserData_healthCheck_outcomes
              (λ _, Normal {| apiCalls.status := 503;
                              apiCalls.json := Normal "maintenance" |}) "octocat")
    as (Hvalue & _).
  destruct (apiCalls.getUserData _ "octocat") as [v|e] eqn:Hcall.
  - destruct (Hvalue v eq_refl) as (response & [= <-] & Hstatus & _).
    simpl in Hstatus. lia.
  - injection Hcall as <-. reflexivity.
Defined.

(** * The application *)

Lemma reload_stored w :
  App.reload w = (App.setSavedProfiles (stored w.2) w.1, w.2).
Proof. unfold App.reload. by rewrite getSavedProfiles_stored. Qed.

Lemma saveProfile_outcome profileData now ls :
  ∃ b ls', storage.saveProfile profileData now ls = (Normal b, ls') ∧
           (length (stored ls) ≤ length (stored ls'))%nat.
Proof.
  destruct (decide (medium ls = Healthy)) as [Hm|Hm].
  - rewrite saveProfile_healthy by done. do 2 eexists. split; [done|].
    rewrite stored_written.
    destruct (length_save_into (stored ls) (profileData, now)); lia.
  - rewrite saveProfile_unhealthy by done. by do 2 eexists.
Qed.

Lemma handleSearch_end_Normal result now w :
  App.handleSearch_end (Normal result) now w
  = (App.setLoading false
       (App.setSavedProfiles (stored (storage.saveProfile result now w.2).2)
          (App.setData (Some result) w.1)),
     (storage.saveProfile result now w.2).2).
Proof.
  unfold App.handleSearch_end.
  destruct (saveProfile_outcome result now w.2) as (b & ls' & -> & _).
  by rewrite getSavedProfiles_stored.
Qed.

Lemma App_removeProfile_cases username ls :
  App.removeProfile username ls
  = if decide (medium ls = Healthy)
    then (Normal true, written (App.filter_at (App.differs username) (stored ls)) ls)
    else (Normal false, ls).
Proof.
  unfold App.removeProfile, try_catch, mbind, Eff_bind.
  rewrite getSavedProfiles_stored. unfold localStorage.setItem.
  by destruct (medium ls).
Qed.

Lemma filter_from_const {A} (f : A → bool) i (l : list A) :
  App.filter_from (λ _, f) i l = JSArray.filter f l.
Proof.
  revert i. induction l as [|x l IH]; intros i; simpl; [done|].
  rewrite IH. by destruct (f x).
Qed.

(** With a string the call of the card is [storage.removeProfile]. *)
Lemma App_removeProfile_Username u ls :
  App.removeProfile (App.Username u) ls = storage.removeProfile u ls.
Proof.
  unfold App.removeProfile, storage.removeProfile, try_catch, mbind, Eff_bind.
  rewrite getSavedProfiles_stored. unfold App.filter_at.
  change (App.filter_from (App.differs (App.Username u)) 0 (stored ls))
    with (App.filter_from
            (λ _ (p : ProfileData), bool_decide (profile_username p ≠ Some u))
            0 (stored ls)).
  by rewrite filter_from_const.
Qed.

Lemma saveProfile_then_saved ls u profileData now :
  medium ls = Healthy → profile_username profileData = Some u →
  ∃ ls', storage.saveProfile profileData now ls = (Normal true, ls') ∧
         storage.isProfileSaved u ls' = (Normal true, ls').
Proof.
  intros Hm Hu. eexists. split; [by apply saveProfile_healthy|].
  rewrite isProfileSaved_stored, stored_written. do 2 f_equal.
  apply some_has_username. exists (stamp (profileData, now)).
  split; [apply stamp_in_save_into | done].
Qed.

(** X11.  However the request ends, [handleSearch] leaves [loading] false
    and the tab as it was.  When the request succeeds the result is the
    data shown, no error is set, the result has been passed to
    [saveProfile] and the list of saved profiles is the one the store then
    returns; when the store accepts writes and the result carries a
    username, the result counts as saved.  When the request fails no data
    is shown, the error is the fixed message, and the storage and the list
    of saved profiles are as before. *)
Theorem handleSearch_outcome
    (fetch : api.Request → completion api.Response) (username now : string)
    (w : App.World) :
  let w' := App.handleSearch fetch username now w in
  App.loading w'.1 = false ∧
  App.activeTab w'.1 = App.activeTab w.1 ∧
  match api.rateDeveloper fetch username with
  | Normal result =>
      App.data w'.1 = Some result ∧
      App.error w'.1 = None ∧
      w'.2 = (storage.saveProfile result now w.2).2 ∧
      App.savedProfiles w'.1 = stored w'.2 ∧
      (medium w.2 = Healthy → is_Some (carried_username result) →
       App.isCurrentSaved w' = Normal true)
  | Throw e =>
      App.data w'.1 = None ∧
      App.error w'.1 = Some App.failure_message ∧
      w'.2 = w.2 ∧
      App.savedProfiles w'.1 = App.savedProfiles w.1
  end.
Proof.
  unfold App.handleSearch. destruct (api.rateDeveloper fetch username) as [result|e].
  - rewrite handleSearch_end_Normal. simpl. repeat split.
    intros Hm [u Hu]. unfold App.isCurrentSaved. simpl.
    unfold carried_username in Hu. rewrite Hu.
    apply carried_username_Some in Hu as [Hu _].
    destruct (saveProfile_then_saved w.2 u result now Hm Hu)
      as (ls' & Hsave & Hsaved).
    rewrite Hsave. simpl. by rewrite Hsaved.
  - simpl. repeat split.
Qed.

Lemma handleSearch_outcome_witness :
  let w' := App.handleSearch
              (λ _, Normal {| api.status := 200;
                              api.json := Normal (sample (Some "eve") 90 "Elite") |})
              "eve" "2024-05-03T10:00:00.000Z" (App.mount ada_then_bob) in
  App.data w'.1 = Some (sample (Some "eve") 90 "Elite") ∧
  App.isCurrentSaved w' = Normal true.
Proof.
  intros w'.
  destruct (handleSearch_outcome
              (λ _, Normal {| api.status := 200;
                              api.json := Normal (sample (Some "eve") 90 "Elite") |})
              "eve" "2024-05-03T10:00:00.000Z" (App.mount ada_then_bob))
    as (_ & _ & Hdata & _ & _ & _ & Hsaved).
  split; [exact Hdata|]. apply Hsaved; [reflexivity | by eexists].
Defined.

(** ** The list of saved profiles and the store *)

Lemma mount_consistent ls : App_consistent (App.mount ls).
Proof. unfold App.mount. by rewrite reload_stored. Qed.

Lemma handleSearch_end_consistent response now w :
  App_consistent w → App_consistent (App.handleSearch_end response now w).
Proof.
  intros Hw. destruct response as [result|e].
  - by rewrite handleSearch_end_Normal.
  - done.
Qed.

Lemma handle_consistent ev w :
  App_consistent w → App_consistent (App.handle ev w).
Proof.
  intros Hw. destruct ev as [id|text|response now|profile|index same|confirmed| |]; simpl.
  - unfold App.clickTab. by destruct (negb _).
  - by destruct (SearchBar.handleSubmit text).
  - by apply handleSearch_end_consistent.
  - done.
  - destruct (App.savedProfiles w.1 !! index) as [p|]; [|done].
    unfold App.handleRemoveProfile. rewrite App_removeProfile_cases.
    destruct (decide (medium w.2 = Healthy)); by rewrite reload_stored.
  - unfold App.handleClearAll. destruct confirmed; [|done].
    rewrite clearAll_cases. destruct (decide (medium w.2 = Unavailable)) as [Hm|Hm].
    + unfold App_consistent, stored. simpl. by rewrite Hm.
    + unfold App_consistent. simpl. by rewrite stored_after_delete.
  - done.
  - done.
Qed.

(** X12.  From the mounting of the application on, whatever handlers run
    and in whatever order, the list of saved profiles the application
    holds is the list the store returns. *)
Theorem savedProfiles_follow_store (events : list App.Event) (ls : LocalStorage) :
  let w := foldl (λ w ev, App.handle ev w) (App.mount ls) events in
  saved w.2 = Normal (App.savedProfiles w.1).
Proof.
  simpl. rewrite saved_stored. f_equal. symmetry.
  change (App_consistent (foldl (λ w ev, App.handle ev w) (App.mount ls) events)).
  generalize (mount_consistent ls). generalize (App.mount ls) as w.
  induction events as [|ev events IH]; intros w Hw; simpl; [done|].
  by apply IH, handle_consistent.
Qed.

(** ** The tabs *)

Lemma run_invariant (P : App.World → Prop) :
  (∀ w ev, P w → App.enabled w ev = true → P (App.handle ev w)) →
  ∀ events w w', P w → App.run events w = Some w' → P w'.
Proof.
  intros Hstep. induction events as [|ev events IH]; intros w w' Hw Hrun; simpl in Hrun.
  - by injection Hrun as <-.
  - destruct (App.enabled w ev) eqn:Hen; [|done]. eapply IH; [|done]. by apply Hstep.
Qed.

(** X13.  In every state the application reaches from its mounting by
    events that the page offers, the active tab is one of the three, and
    the compare tab is active only with two or more saved profiles, so that
    the comparison then shows the leaderboard and never its refusal. *)
Theorem compare_tab_has_two_profiles
    (events : list App.Event) (ls : LocalStorage) (w : App.World) :
  App.run events (App.mount ls) = Some w →
  App.activeTab w.1 ∈ ["search"; "saved"; "compare"] ∧
  (App.activeTab w.1 = "compare" →
   (2 ≤ length (App.savedProfiles w.1))%nat ∧
   CompareView.CompareView (Some (App.savedProfiles w.1))
   = CompareView.Leaderboard (CompareView.ranked (App.savedProfiles w.1))
       (App.savedProfiles w.1)).
Proof.
  intros Hrun.
  pose (P := λ w : App.World,
              App_consistent w ∧
              App.activeTab w.1 ∈ ["search"; "saved"; "compare"] ∧
              (App.activeTab w.1 = "compare" →
               (2 ≤ length (App.savedProfiles w.1))%nat)).
  assert (Hinv : P w).
  { apply (run_invariant P) with (events := events) (w := App.mount ls);
      [| |exact Hrun]; unfold P.
    - clear. intros w ev (Hc & Htab & Htwo) Hen.
      split; [by apply handle_consistent|].
      destruct ev as [id|text|response now|profile|index same|confirmed| |];
        cbn [App.handle App.enabled] in *.
      + apply bool_decide_eq_true_1 in Hen. unfold App.clickTab, App.tab_disabled.
        destruct (bool_decide_reflect (id = "compare")) as [->|Hid]; simpl.
        * destruct (Nat.ltb_spec (length (App.savedProfiles w.1)) 2); simpl; [done|].
          split; [done|]. intros _. lia.
        * split; [done|]. by intros ?.
      + by destruct (SearchBar.handleSubmit text).
      + destruct response as [result|e]; [|done].
        rewrite handleSearch_end_Normal. simpl. split; [done|].
        intros Hcompare. specialize (Htwo Hcompare). rewrite Hc in Htwo.
        destruct (saveProfile_outcome result now w.2) as (b & ls' & -> & Hlen).
        simpl. lia.
      + split; [by apply (bool_decide_unpack _) | done].
      + apply andb_true_iff in Hen as [Hsaved%bool_decide_eq_true_1 _].
        destruct (App.savedProfiles w.1 !! index) as [p|];
          [|split; [done|]; rewrite Hsaved; done].
        unfold App.handleRemoveProfile. rewrite App_removeProfile_cases.
        destruct (decide (medium w.2 = Healthy)); rewrite reload_stored; simpl;
          (split; [done|]); rewrite Hsaved; done.
      + apply andb_true_iff in Hen as [Hsaved%bool_decide_eq_true_1 _].
        unfold App.handleClearAll. destruct confirmed; [|done].
        rewrite clearAll_cases. destruct (decide (medium w.2 = Unavailable)); simpl;
          (split; [done|]); rewrite Hsaved; done.
      + apply andb_true_iff in Hen as [_ Hlen%Nat.leb_le].
        split; [by apply (bool_decide_unpack _) | done].
      + split; [by apply (bool_decide_unpack _) | done].
    - split; [apply mount_consistent|]. unfold App.mount. rewrite reload_stored.
      simpl. split; [by apply (bool_decide_unpack _) | done]. }
  destruct Hinv as (_ & Htab & Htwo). split; [done|].
  intros Hcompare. specialize (Htwo Hcompare). split; [done|].
  unfold CompareView.CompareView.
  by destruct (Nat.ltb_spec (length (App.savedProfiles w.1)) 2); [lia|].
Qed.

Lemma compare_tab_has_two_profiles_witness :
  ∃ w, App.run sample_session (App.mount fresh_storage) = Some w ∧
       App.activeTab w.1 = "compare" ∧
       (2 ≤ length (App.savedProfiles w.1))%nat.
Proof.
  eexists. split; [reflexivity|]. split; [reflexivity|].
  apply (compare_tab_has_two_profiles sample_session fresh_storage);
    reflexivity.
Defined.

(** ** The first version of the application *)

(** X14.  On the data shown, the loading flag and the error, [handleSearch]
    of the application with saved profiles does what [handleSearch] of the
    first version does: saving the result never turns a successful search
    into a failed one. *)
Theorem handleSearch_refines_first_version
    (fetch : api.Request → completion api.Response) (username now : string)
    (w : App.World) :
  App_project (App.handleSearch fetch username now w).1
  = App0.handleSearch fetch username (App_project w.1).
Proof.
  unfold App.handleSearch, App0.handleSearch.
  destruct (api.rateDeveloper fetch username) as [result|e].
  - by rewrite handleSearch_end_Normal.
  - done.
Qed.

(** * The saved profiles as shown *)

Lemma Sorted_weaken_on {A} (P : A → Prop) (R1 R2 : relation A) l :
  Forall P l → (∀ x y, P x → P y → R1 x y → R2 x y) → Sorted R1 l → Sorted R2 l.
Proof.
  intros HP HR Hs. induction Hs as [|x l _ IH Hhd]; [constructor|].
  apply Forall_cons in HP as [Hx HP]. constructor; [by apply IH|].
  destruct Hhd as [|y l Hxy]; constructor.
  apply Forall_cons in HP as [Hy _]. by apply HR.
Qed.

Section saved_profiles_view.
Context (toLowerCase : string → string) (localeCompare : string → string → Z)
  (Date_value : string → option Z).

Local Abbreviation shown :=
  (SavedProfiles.filteredProfiles toLowerCase localeCompare Date_value).
Local Abbreviation sort_by :=
  (SavedProfiles.sortProfiles toLowerCase localeCompare Date_value).
Local Abbreviation cmp_by :=
  (SavedProfiles.comparator toLowerCase localeCompare Date_value).
Local Abbreviation render :=
  (SavedProfilesView.render toLowerCase localeCompare Date_value).

Lemma filteredProfiles_Permutation profiles filter sortBy sortOrder :
  shown profiles filter sortBy sortOrder
  ≡ₚ SavedProfiles.filterByTier profiles filter.
Proof. apply sort_Permutation. Qed.

Lemma filterByTier_sublist profiles filter :
  SavedProfiles.filterByTier profiles filter `sublist_of` profiles.
Proof.
  unfold SavedProfiles.filterByTier. case_bool_decide; [done|].
  rewrite (JSArray_filter_stdpp (λ p, tier p = Some filter)). apply sublist_filter.
Qed.

Lemma tierCounts_lookup profiles t :
  t ∈ SavedProfilesView.tier_buttons →
  SavedProfilesView.tierCounts profiles !! t
  = Some (length (SavedProfiles.filterByTier profiles t)).
Proof.
  unfold SavedProfilesView.tier_buttons, SavedProfilesView.tierCounts.
  rewrite !elem_of_cons, elem_of_nil.
  intros [->|[->|[->|[->|[->|[]]]]]];
    repeat (rewrite lookup_insert_ne by done); by rewrite lookup_insert_eq.
Qed.

(** X15.  For each of the five filter buttons the count on the button is
    the number of cards that filter shows, whatever the sort; the button is
    disabled exactly when that filter would show no card, which, when there
    are saved profiles, is when the component would show that no profile
    matches; the button of all profiles is then never disabled. *)
Theorem tierCounts_count_cards
    (profiles : list ProfileData) (t sortBy sortOrder : string) :
  t ∈ SavedProfilesView.tier_buttons →
  SavedProfilesView.tierCounts profiles !! t
  = Some (length (shown profiles t sortBy sortOrder)) ∧
  (SavedProfilesView.button_disabled profiles t = true ↔
   shown profiles t sortBy sortOrder = []) ∧
  (profiles ≠ [] →
   (render (Some profiles) t sortBy sortOrder = SavedProfilesView.NoMatch ↔
    SavedProfilesView.button_disabled profiles t = true) ∧
   SavedProfilesView.button_disabled profiles "all" = false).
Proof.
  intros Ht.
  assert (Hcount : SavedProfilesView.tierCounts profiles !! t
                   = Some (length (shown profiles t sortBy sortOrder))).
  { rewrite tierCounts_lookup by done. f_equal. symmetry.
    apply Permutation_length, filteredProfiles_Permutation. }
  assert (Hdisabled : SavedProfilesView.button_disabled profiles t = true ↔
                      shown profiles t sortBy sortOrder = []).
  { unfold SavedProfilesView.button_disabled. rewrite Hcount.
    rewrite bool_decide_eq_true. split.
    - intros [= Hlen]. by apply length_zero_iff_nil.
    - by intros ->. }
  split; [done|]. split; [done|]. intros Hne. split.
  - rewrite Hdisabled. unfold SavedProfilesView.render.
    destruct profiles as [|p profiles]; [done|]. simpl (length (p :: profiles) =? 0)%nat.
    cbv iota.
    destruct (shown (p :: profiles) t sortBy sortOrder); simpl; by split.
  - unfold SavedProfilesView.button_disabled.
    rewrite (tierCounts_lookup profiles "all") by (by left).
    apply bool_decide_eq_false_2. destruct profiles; [done|]. by intros [= ?].
Qed.

(** X16.  Whatever the sort key and order, and whatever [localeCompare]
    answers, the cards shown are a rearrangement of the profiles the tier
    filter passes: sorting loses no profile and shows none twice.  Every
    card is one of the profiles given. *)
Theorem filteredProfiles_rearranges
    (profiles : list ProfileData) (filter sortBy sortOrder : string) :
  shown profiles filter sortBy sortOrder
  ≡ₚ SavedProfiles.filterByTier profiles filter ∧
  shown profiles filter sortBy sortOrder ⊆+ profiles ∧
  shown profiles "all" sortBy sortOrder ≡ₚ profiles.
Proof.
  split; [apply filteredProfiles_Permutation|]. split.
  - rewrite filteredProfiles_Permutation.
    apply sublist_submseteq, filterByTier_sublist.
  - apply filteredProfiles_Permutation.
Qed.

Lemma comparator_key sortBy sortOrder a b :
  sortBy ≠ "name" →
  sortBy = "score" ∨
    (SavedProfilesView.date_valid Date_value a ∧
     SavedProfilesView.date_valid Date_value b) →
  cmp_by sortBy sortOrder a b
  = if bool_decide (sortOrder = "desc")
    then - (SavedProfilesView.sort_key Date_value sortBy a
            - SavedProfilesView.sort_key Date_value sortBy b)
    else SavedProfilesView.sort_key Date_value sortBy a
         - SavedProfilesView.sort_key Date_value sortBy b.
Proof.
  intros Hname Hvalid.
  unfold SavedProfiles.comparator, SavedProfilesView.sort_key,
    SavedProfiles.date_difference.
  rewrite (bool_decide_eq_false_2 (sortBy = "name")) by done.
  destruct (bool_decide_reflect (sortBy = "score")) as [Hscore|Hscore]; [done|].
  destruct Hvalid as [?|[[ta Ha] [tb Hb]]]; [done|]. by rewrite Ha, Hb.
Qed.

(** Of two profiles one may stand before the other, whatever their dates. *)
Lemma comparator_total sortBy sortOrder a b :
  sortBy ≠ "name" →
  cmp_by sortBy sortOrder a b ≤ 0 ∨ cmp_by sortBy sortOrder b a ≤ 0.
Proof.
  intros Hname. unfold SavedProfiles.comparator, SavedProfiles.date_difference.
  rewrite (bool_decide_eq_false_2 (sortBy = "name")) by done.
  destruct (bool_decide (sortBy = "score")), (bool_decide (sortOrder = "desc")),
    (SavedProfiles.sort_date Date_value a), (SavedProfiles.sort_date Date_value b);
    lia.
Qed.

(** Profiles with the same key may stand in either order. *)
Lemma comparator_tie sortBy sortOrder a b :
  sortBy ≠ "name" →
  SavedProfilesView.sort_key Date_value sortBy a
  = SavedProfilesView.sort_key Date_value sortBy b →
  cmp_by sortBy sortOrder a b ≤ 0.
Proof.
  intros Hname. unfold SavedProfiles.comparator, SavedProfiles.date_difference,
    SavedProfilesView.sort_key.
  rewrite (bool_decide_eq_false_2 (sortBy = "name")) by done.
  destruct (bool_decide (sortBy = "score")), (bool_decide (sortOrder = "desc")),
    (SavedProfiles.sort_date Date_value a), (SavedProfiles.sort_date Date_value b);
    simpl; lia.
Qed.

(** X17.  A sort by score, and a sort by date of profiles whose saving
    times are all valid dates (a missing or empty one counting as time 0),
    in either order, puts the profiles in that order of their scores or
    times, and leaves the profiles that tie in the order they had. *)
Theorem sortProfiles_sorted_stable
    (profiles : list ProfileData) (sortBy sortOrder : string) :
  sortBy ≠ "name" →
  sortBy = "score" ∨ Forall (SavedProfilesView.date_valid Date_value) profiles →
  let key := SavedProfilesView.sort_key Date_value sortBy in
  StronglySorted
    (λ a b, if bool_decide (sortOrder = "desc") then key b ≤ key a else key a ≤ key b)
    (sort_by profiles sortBy sortOrder) ∧
  ∀ k, filter (λ p, key p = k) (sort_by profiles sortBy sortOrder)
       = filter (λ p, key p = k) profiles.
Proof.
  intros Hname Hvalid key. split.
  - apply Sorted_StronglySorted.
    { intros a b c. case_bool_decide; lia. }
    apply (Sorted_weaken_on
             (λ p, sortBy = "score" ∨ SavedProfilesView.date_valid Date_value p)
             (before (cmp_by sortBy sortOrder))).
    + unfold SavedProfiles.sortProfiles. rewrite sort_Permutation.
      destruct Hvalid as [?|Hvalid]; [apply Forall_forall; by left|].
      eapply Forall_impl; [done|]. by right.
    + intros a b Ha Hb. unfold before. rewrite comparator_key; [| done |].
      * fold key. case_bool_decide; lia.
      * destruct Ha as [?|Ha]; [by left|]. destruct Hb as [?|Hb]; [by left|].
        by right.
    + apply sort_Sorted. intros a b. by apply comparator_total.
  - intros k. apply filter_sort. intros a b Ha Hb.
    apply comparator_tie; [done|]. fold key. congruence.
Qed.

End saved_profiles_view.

Lemma tierCounts_count_cards_witness :
  SavedProfilesView.tierCounts three_scores !! "Elite" = Some 1%nat ∧
  SavedProfilesView.button_disabled three_scores "Beginner" = true.
Proof.
  destruct (tierCounts_count_cards id (λ _ _, 0) (λ _, Some 0) three_scores
              "Elite" "date" "desc") as (Hcount & _).
  { by apply (bool_decide_unpack _). }
  destruct (tierCounts_count_cards id (λ _ _, 0) (λ _, Some 0) three_scores
              "Beginner" "date" "desc") as (_ & Hdisabled & _).
  { by apply (bool_decide_unpack _). }
  split.
  - rewrite Hcount. reflexivity.
  - apply Hdisabled. reflexivity.
Defined.

Lemma sortProfiles_sorted_stable_witness :
  filter (λ p, final_score p = 75)
    (SavedProfiles.sortProfiles id (λ _ _, 0) (λ _, Some 0) three_scores "score" "desc")
  = filter (λ p, final_score p = 75) three_scores.
Proof.
  apply (sortProfiles_sorted_stable id (λ _ _, 0) (λ _, Some 0) three_scores
           "score" "desc"); [discriminate | by left].
Defined.

(** * The comparison *)

Lemma colorPalette_NoDup : NoDup CompareViewParts.colorPalette.
Proof. by apply (bool_decide_unpack _). Qed.

Lemma profileColors_lookup profiles i c :
  CompareViewParts.profileColors profiles !! i = Some c →
  CompareViewParts.color c = CompareViewParts.colorPalette !! (i `mod` 5)%nat.
Proof.
  unfold CompareViewParts.profileColors.
  by intros (p & _ & ->)%list_lookup_imap_Some.
Qed.

(** X18.  There is one colour for each profile compared, always one of the
    palette, and two profiles have the same colour exactly when their
    positions differ by a multiple of five: up to five profiles have
    colours of their own, a sixth has the colour of the first. *)
Theorem profileColors_cycle (profiles : list ProfileData) :
  length (CompareViewParts.profileColors profiles) = length profiles ∧
  (∀ i c, CompareViewParts.profileColors profiles !! i = Some c →
     ∃ name, CompareViewParts.color c = Some name ∧
             name ∈ CompareViewParts.colorPalette) ∧
  (∀ i j ci cj,
     CompareViewParts.profileColors profiles !! i = Some ci →
     CompareViewParts.profileColors profiles !! j = Some cj →
     (CompareViewParts.color ci = CompareViewParts.color cj ↔
      i `mod` 5 = j `mod` 5)%nat).
Proof.
  assert (Hin : ∀ i, ∃ name,
            CompareViewParts.colorPalette !! (i `mod` 5)%nat = Some name).
  { intros i. apply lookup_lt_is_Some. simpl.
    pose proof (Nat.mod_upper_bound i 5). lia. }
  split; [apply length_imap|]. split.
  - intros i c Hc. rewrite (profileColors_lookup _ _ _ Hc).
    destruct (Hin i) as (name & Hname). exists name. split; [done|].
    by eapply list_elem_of_lookup_2.
  - intros i j ci cj Hi Hj.
    rewrite (profileColors_lookup _ _ _ Hi), (profileColors_lookup _ _ _ Hj).
    destruct (Hin i) as (ni & Hni). split.
    + intros Heq. apply (NoDup_lookup _ _ _ ni colorPalette_NoDup); [done|].
      by rewrite <- Heq.
    + by intros ->.
Qed.

Lemma profileColors_cycle_witness :
  CompareViewParts.color <$> CompareViewParts.profileColors (fst <$> eleven_calls) !! 0%nat
  = CompareViewParts.color <$> CompareViewParts.profileColors (fst <$> eleven_calls) !! 5%nat.
Proof.
  destruct (profileColors_cycle (fst <$> eleven_calls)) as (_ & _ & Hsame).
  destruct (CompareViewParts.profileColors (fst <$> eleven_calls) !! 0%nat)
    as [c0|] eqn:H0; [|discriminate H0].
  destruct (CompareViewParts.profileColors (fst <$> eleven_calls) !! 5%nat)
    as [c5|] eqn:H5; [|discriminate H5].
  simpl. f_equal. apply (Hsame 0%nat 5%nat c0 c5 H0 H5). reflexivity.
Defined.

Lemma Math_max_cons v values :
  CompareViewParts.Math_max (v :: values)
  = Some (from_option (Z.max v) v (CompareViewParts.Math_max values)).
Proof. done. Qed.

Lemma Math_max_greatest values :
  values ≠ [] →
  ∃ m, CompareViewParts.Math_max values = Some m ∧ m ∈ values ∧
       ∀ v, v ∈ values → v ≤ m.
Proof.
  induction values as [|v values IH]; [done|]. intros _. rewrite Math_max_cons.
  destruct values as [|w values].
  - exists v. simpl. split; [done|]. split; [by left|].
    intros ? ->%list_elem_of_singleton. lia.
  - destruct IH as (m & -> & Hm & Hmax); [done|]. simpl.
    exists (Z.max v m). split; [done|]. split.
    + destruct (Z.max_spec v m) as [[_ ->]|[_ ->]]; [by right | by left].
    + intros x [->|Hx]%elem_of_cons; [lia|]. specialize (Hmax x Hx). lia.
Qed.

(** X19.  In a [StatBar] the values shown as the maximum are those that no
    value of the bar exceeds, and when there is a value at all at least one
    is shown so. *)
Theorem StatBar_highlights_leaders (values : list Z) :
  length (CompareViewParts.StatBar_highlights values) = length values ∧
  (∀ i v, values !! i = Some v →
     (CompareViewParts.StatBar_highlights values !! i = Some true ↔
      ∀ w, w ∈ values → w ≤ v)) ∧
  (values ≠ [] → true ∈ CompareViewParts.StatBar_highlights values).
Proof.
  unfold CompareViewParts.StatBar_highlights.
  split; [apply length_fmap|].
  destruct values as [|v0 values0] eqn:Hvalues; [by split; [intros ??; done|]|].
  rewrite <- Hvalues.
  destruct (Math_max_greatest values) as (m & Hm & Hin & Hmax); [by subst|].
  rewrite Hm. split.
  - intros i v Hv. rewrite list_lookup_fmap, Hv. simpl. split.
    + intros [= Heq%bool_decide_eq_true_1]. injection Heq as ->. done.
    + intros Hv_max. do 2 f_equal. apply bool_decide_eq_true_2. f_equal.
      apply list_elem_of_lookup_2 in Hv.
      specialize (Hv_max m Hin). specialize (Hmax v Hv). lia.
  - intros _. apply list_elem_of_fmap. exists m. split; [|done].
    by rewrite bool_decide_eq_true_2.
Qed.

Lemma StatBar_highlights_leaders_witness :
  CompareViewParts.StatBar_highlights sample_values = [false; true; false; true] ∧
  true ∈ CompareViewParts.StatBar_highlights sample_values.
Proof.
  split; [reflexivity|].
  apply (StatBar_highlights_leaders sample_values). discriminate.
Defined.

(** X20.  The profile at the head of the ranking has a score no other
    profile exceeds, and among the profiles with that score it is the one
    that comes first in the input. *)
Theorem ranked_head_leads (profiles : list ProfileData) (p : ProfileData)
    (rest : list ProfileData) :
  CompareView.ranked profiles = p :: rest →
  p ∈ profiles ∧
  (∀ q, q ∈ profiles → final_score q ≤ final_score p) ∧
  head (filter (λ q, final_score q = final_score p) profiles) = Some p.
Proof.
  intros Hranked.
  assert (Hperm : p :: rest ≡ₚ profiles).
  { rewrite <- Hranked. apply sort_Permutation. }
  assert (Hsorted : StronglySorted score_descending (p :: rest)).
  { rewrite <- Hranked. apply Sorted_StronglySorted; [apply score_descending_transitive|].
    eapply Sorted_weaken; [|apply sort_Sorted].
    - intros x y. unfold before, score_descending. lia.
    - intros x y. lia. }
  apply StronglySorted_cons in Hsorted as [Hhead _]. rewrite Forall_forall in Hhead.
  split; [rewrite <- Hperm; by left|]. split.
  - intros q Hq. rewrite <- Hperm in Hq.
    apply elem_of_cons in Hq as [->|Hq]; [lia|]. by apply Hhead.
  - rewrite <- (filter_sort (λ a b, final_score b - final_score a)
                  (λ q, final_score q = final_score p)).
    + fold (CompareView.ranked profiles). rewrite Hranked.
      by rewrite filter_cons, decide_True.
    + intros x y Hx Hy. lia.
Qed.

Lemma ranked_head_leads_witness :
  head (filter (λ q, final_score q = 90) three_scores)
  = Some (sample (Some "ada") 90 "Elite").
Proof.
  apply (ranked_head_leads three_scores (sample (Some "ada") 90 "Elite")
           [sample (Some "cyd") 75 "Advanced"; sample (Some "bob") 60 "Intermediate"]).
  reflexivity.
Defined.

(** * The steps shown while loading *)

(** X21.  After [n] firings of the timer the current step is the [n]-th,
    and from the fourth firing on the last one: the steps before it are
    marked completed, it alone is marked current, and the last step is
    never marked completed. *)
Theorem loading_steps (n : nat) :
  let currentStep := Nat.iter n LoadingState.tick 0%nat in
  currentStep = (n `min` 4)%nat ∧
  LoadingState.marks currentStep
  = replicate currentStep LoadingState.Completed ++ [LoadingState.Current] ++
    replicate (4 - currentStep) LoadingState.Upcoming ∧
  LoadingState.marks currentStep !! 4%nat ≠ Some LoadingState.Completed.
Proof.
  simpl.
  assert (Hstep : Nat.iter n LoadingState.tick 0%nat = (n `min` 4)%nat).
  { induction n as [|n IH]; [done|]. simpl. rewrite IH. unfold LoadingState.tick.
    change (length LoadingState.STEPS - 1)%nat with 4%nat.
    destruct (Nat.ltb_spec (n `min` 4) 4); lia. }
  rewrite Hstep. split; [done|].
  assert (Hle : (n `min` 4 ≤ 4)%nat) by lia.
  destruct (n `min` 4)%nat as [|[|[|[|[|c]]]]]; [by split..|lia].
Qed.

(** * Removing from the card of a record without username *)

Lemma filter_from_sublist {A} (keep : nat → A → bool) i (l : list A) :
  App.filter_from keep i l `sublist_of` l.
Proof.
  revert i. induction l as [|x l IH]; intros i; simpl; [done|].
  destruct (keep i x); [by apply sublist_skip | by apply sublist_cons].
Qed.

Lemma filter_from_filter {A} (P : A → Prop) `{!∀ x, Decision (P x)}
    (keep : nat → A → bool) i (l : list A) :
  (∀ j x, P x → keep j x = true) →
  filter P (App.filter_from keep i l) = filter P l.
Proof.
  intros Hkeep. revert i. induction l as [|x l IH]; intros i; simpl; [done|].
  rewrite (filter_cons _ x l). destruct (keep i x) eqn:Hx.
  - by rewrite filter_cons, IH.
  - rewrite IH. destruct (decide (P x)) as [HP|HP]; [|done].
    rewrite (Hkeep i x HP) in Hx. done.
Qed.

Lemma filter_from_shorter {A} (keep : nat → A → bool) i (l : list A) j x :
  l !! j = Some x → keep (i + j)%nat x = false →
  (length (App.filter_from keep i l) < length l)%nat.
Proof.
  revert i j. induction l as [|y l IH]; intros i j Hj Hx; [done|]. simpl.
  pose proof (sublist_length _ _ (filter_from_sublist keep (S i) l)).
  destruct j as [|j]; simpl in Hj.
  - injection Hj as ->. rewrite Nat.add_0_r in Hx. rewrite Hx. lia.
  - specialize (IH (S i) j Hj). rewrite Nat.add_succ_r in Hx.
    specialize (IH Hx). destruct (keep i y); simpl; lia.
Qed.

(** X22.  On a storage that accepts writes, the remove button of a record
    without a username removes that record, and with it at most other
    records without a username (those whose missing username is the same
    one, [undefined] or [null]); every record with a username stays, in its
    order, and the list of saved profiles is re-read from the store. *)
Theorem handleRemoveProfile_without_username (w : App.World) (same : nat → bool) :
  medium w.2 = Healthy →
  let w' := App.handleRemoveProfile (App.NoUsername same) w in
  saved w'.2 = Normal (App.savedProfiles w'.1) ∧
  App.savedProfiles w'.1 `sublist_of` stored w.2 ∧
  filter (λ p, profile_username p ≠ None) (App.savedProfiles w'.1)
  = filter (λ p, profile_username p ≠ None) (stored w.2) ∧
  (∀ i p, stored w.2 !! i = Some p → profile_username p = None → same i = true →
     (length (App.savedProfiles w'.1) < length (stored w.2))%nat).
Proof.
  intros Hm. simpl. unfold App.handleRemoveProfile.
  rewrite App_removeProfile_cases, decide_True by done.
  rewrite reload_stored. cbn [fst snd App.savedProfiles App.setSavedProfiles].
  rewrite saved_stored, !stored_written. unfold App.filter_at.
  split; [done|]. split; [apply filter_from_sublist|]. split.
  - apply filter_from_filter. intros j p Hp. simpl.
    by rewrite bool_decide_eq_false_2.
  - intros i p Hi Hp Hsame. apply (filter_from_shorter _ 0 _ i p Hi). simpl.
    by rewrite bool_decide_eq_true_2, Hsame.
Qed.

Lemma handleRemoveProfile_without_username_witness :
  App.savedProfiles nameless_world.1
  = [stamp (sample None 40 "Beginner", "2024-05-03T10:00:00.000Z");
     stamp (sample (Some "ada") 80 "Advanced", "2024-05-02T10:00:00.000Z");
     stamp (sample None 70 "Advanced", "2024-05-01T10:00:00.000Z")] ∧
  (length (App.savedProfiles
             (App.handleRemoveProfile (App.NoUsername (λ i, bool_decide (i = 0%nat)))
                nameless_world).1) < 3)%nat.
Proof.
  split; [reflexivity|].
  destruct (handleRemoveProfile_without_username nameless_world
              (λ i, bool_decide (i = 0%nat))) as (_ & _ & _ & Hshorter);
    [reflexivity|].
  apply (Hshorter 0%nat (stamp (sample None 40 "Beginner", "2024-05-03T10:00:00.000Z")));
    reflexivity.
Defined.
